(** * UPI / KYC scam and fraud detection: the risk engine and the report workflow

    A shallow embedding of [backend/risk_engine.py], [backend/gemini_service.py],
    [backend/database.py] and [backend/routes/reports.py], and the properties
    of the scoring engine and of the submission workflow proved over it.

    Modelling conventions.
    - Python [str] is [string]; the embedding is exact on ASCII text, where
      [str.lower] maps [A-Z] to [a-z] and [str.strip] removes the ASCII
      white space characters.
    - Python [int] is [Z]; Python [float] is the primitive binary64 [float].
    - A function returning a tuple returns a pair; a dict with fixed keys is
      a record; [Optional] is [option]. *)

From Stdlib Require Import ZArith List Bool Ascii String Lia.
From Stdlib Require Import Floats DecimalString Permutation Sorted.
Import ListNotations.

Set Warnings "-inexact-float,-register-all".

Open Scope Z_scope.
Open Scope list_scope.
Open Scope string_scope.

(** ** The Python string operations the program uses *)

Module Py.

Definition is_upper (c : ascii) : bool :=
  let n := N_of_ascii c in ((65 <=? n) && (n <=? 90))%N.

(** [c.lower()] on one character. *)
Definition lower_char (c : ascii) : ascii :=
  if is_upper c then ascii_of_N (N_of_ascii c + 32) else c.

(** [s.lower()] *)
Fixpoint lower (s : string) : string :=
  match s with
  | EmptyString => EmptyString
  | String c s' => String (lower_char c) (lower s')
  end.

(** [c.isspace()]: tab, line feed, vertical tab, form feed, carriage
    return, the four separators 0x1c-0x1f and the space. *)
Definition isspace (c : ascii) : bool :=
  let n := N_of_ascii c in
  (((9 <=? n) && (n <=? 13)) || ((28 <=? n) && (n <=? 32)))%N.

Fixpoint lstrip (s : string) : string :=
  match s with
  | EmptyString => EmptyString
  | String c s' => if isspace c then lstrip s' else s
  end.

Fixpoint rstrip (s : string) : string :=
  match s with
  | EmptyString => EmptyString
  | String c s' =>
      match rstrip s' with
      | EmptyString => if isspace c then EmptyString else String c EmptyString
      | r => String c r
      end
  end.

(** [s.strip()] *)
Definition strip (s : string) : string := rstrip (lstrip s).

(** [s.startswith(p)] *)
Fixpoint startswith (s p : string) {struct p} : bool :=
  match p with
  | EmptyString => true
  | String a p' =>
      match s with
      | EmptyString => false
      | String b s' => Ascii.eqb a b && startswith s' p'
      end
  end.

(** [sub in s] *)
Fixpoint contains (sub s : string) : bool :=
  startswith s sub ||
  match s with
  | EmptyString => false
  | String _ s' => contains sub s'
  end.

(** [s.endswith(p)] *)
Fixpoint endswith (s p : string) : bool :=
  (s =? p) ||
  match s with
  | EmptyString => false
  | String _ s' => endswith s' p
  end.

(** [s[n:]] and [s[:-n]] *)
Fixpoint drop (n : nat) (s : string) : string :=
  match n, s with
  | S n', String _ s' => drop n' s'
  | _, _ => s
  end.

(** [s.replace(c, "")] for a one-character [c]. *)
Fixpoint remove_char (c : ascii) (s : string) : string :=
  match s with
  | EmptyString => EmptyString
  | String d s' =>
      if Ascii.eqb d c then remove_char c s' else String d (remove_char c s')
  end.

(** [sep.join(l)] *)
Fixpoint join (sep : string) (l : list string) : string :=
  match l with
  | [] => EmptyString
  | [x] => x
  | x :: l' => x ++ sep ++ join sep l'
  end.

(** [s[:n]] *)
Fixpoint take (n : nat) (s : string) : string :=
  match n, s with
  | S n', String c s' => String c (take n' s')
  | _, _ => EmptyString
  end.

Definition drop_last (n : nat) (s : string) : string :=
  take (String.length s - n) s.

(** [str(n)] for an [int]. *)
Definition str_int (n : Z) : string := NilZero.string_of_int (Z.to_int n).

(** [sum(l)] and [len(l)] *)
Definition sum (l : list Z) : Z := fold_left Z.add l 0.
Definition len {A} (l : list A) : Z := Z.of_nat (List.length l).

(** The integer nearest to [m * 2^e], ties to the even one: the digits
    that the ['f'] presentation prints at precision 0. *)
Definition round_half_even (m e : Z) : Z :=
  if (0 <=? e)%Z then m * 2 ^ e
  else
    let d := 2 ^ (- e) in
    let q := m / d in
    match (2 * (m mod d)) ?= d with
    | Lt => q
    | Gt => q + 1
    | Eq => if Z.even q then q else q + 1
    end.

(** [format(x, ".0%")]: the value is multiplied by 100 in binary64, printed
    with no decimals (correctly rounded), and followed by a percent sign. *)
Definition format_pct0 (x : float) : string :=
  match Prim2SF (x * 100)%float with
  | S754_nan => "nan%"
  | S754_infinity s => if s then "-inf%" else "inf%"
  | S754_zero s => if s then "-0%" else "0%"
  | S754_finite s m e =>
      (if s then "-" else "") ++ str_int (round_half_even (Zpos m) e) ++ "%"
  end.

(** [x >= y] on floats (false as soon as one side is a NaN). *)
Definition fge (x y : float) : bool := PrimFloat.leb y x.

(** [float(n)] for an [int]: the nearest binary64 value, or no value when
    the integer is too large (Python raises [OverflowError]). *)
Definition float_of_int (n : Z) : option float :=
  match binary_normalize prec emax n 0 false with
  | S754_infinity _ => None
  | sf => Some (SF2Prim sf)
  end.

End Py.

(** ** Regular expressions, as far as [re.match] and [re.search] are used
       for their truth value *)

Module Regex.

Inductive re : Type :=
| Void : re
| Eps : re
| Chr : (ascii -> bool) -> re
| Cat : re -> re -> re
| Alt : re -> re -> re
| Star : re -> re.

Fixpoint nullable (r : re) : bool :=
  match r with
  | Void => false
  | Eps => true
  | Chr _ => false
  | Cat r1 r2 => nullable r1 && nullable r2
  | Alt r1 r2 => nullable r1 || nullable r2
  | Star _ => true
  end.

Definition cat (r1 r2 : re) : re :=
  match r1, r2 with
  | Void, _ => Void
  | _, Void => Void
  | Eps, _ => r2
  | _, _ => Cat r1 r2
  end.

Definition alt (r1 r2 : re) : re :=
  match r1, r2 with
  | Void, _ => r2
  | _, Void => r1
  | _, _ => Alt r1 r2
  end.

(** Brzozowski derivative of [r] by the character [c]. *)
Fixpoint deriv (c : ascii) (r : re) : re :=
  match r with
  | Void => Void
  | Eps => Void
  | Chr p => if p c then Eps else Void
  | Cat r1 r2 =>
      alt (cat (deriv c r1) r2) (if nullable r1 then deriv c r2 else Void)
  | Alt r1 r2 => alt (deriv c r1) (deriv c r2)
  | Star r1 => cat (deriv c r1) (Star r1)
  end.

(** [r] matches the whole of [s]. *)
Fixpoint fullmatch (r : re) (s : string) : bool :=
  match s with
  | EmptyString => nullable r
  | String c s' => fullmatch (deriv c r) s'
  end.

(** Any character at all, and the dot, which excludes the line feed. *)
Definition anychar : re := Chr (fun _ => true).
Definition dot : re := Chr (fun c => negb (Ascii.eqb c "010"%char)).

(** A literal string. *)
Fixpoint lit (s : string) : re :=
  match s with
  | EmptyString => Eps
  | String c s' => Cat (Chr (Ascii.eqb c)) (lit s')
  end.

Fixpoint alts (l : list re) : re :=
  match l with
  | [] => Void
  | [r] => r
  | r :: l' => Alt r (alts l')
  end.

(** [r{n,}] *)
Fixpoint at_least (n : nat) (r : re) : re :=
  match n with
  | O => Star r
  | S n' => Cat r (at_least n' r)
  end.

(** The strings that [r] denotes. *)
Inductive lang : re -> string -> Prop :=
| lang_Eps : lang Eps EmptyString
| lang_Chr (p : ascii -> bool) (c : ascii) :
    p c = true -> lang (Chr p) (String c EmptyString)
| lang_Cat (r1 r2 : re) (s1 s2 : string) :
    lang r1 s1 -> lang r2 s2 -> lang (Cat r1 r2) (s1 ++ s2)
| lang_Alt_l (r1 r2 : re) (s : string) : lang r1 s -> lang (Alt r1 r2) s
| lang_Alt_r (r1 r2 : re) (s : string) : lang r2 s -> lang (Alt r1 r2) s
| lang_Star_nil (r : re) : lang (Star r) EmptyString
| lang_Star_app (r : re) (s1 s2 : string) :
    lang r s1 -> lang (Star r) s2 -> lang (Star r) (s1 ++ s2).

(** [re.match(r, s)] is not [None]: some prefix of [s] matches [r]. *)
Definition re_match (r : re) (s : string) : bool :=
  fullmatch (Cat r (Star anychar)) s.

(** [re.search(r, s)] is not [None]: some substring of [s] matches [r]. *)
Definition re_search (r : re) (s : string) : bool :=
  fullmatch (Cat (Star anychar) (Cat r (Star anychar))) s.

End Regex.

(** ** [backend/risk_engine.py] *)

Module RiskEngine.
Import Py Regex.

Definition SCAM_KEYWORDS : list string :=
  [ "otp"; "kyc"; "aadhar"; "aadhaar"; "pan card"; "lottery"; "prize";
    "winner"; "congratulations"; "urgent"; "verify"; "suspend";
    "blocked"; "link"; "click here"; "rupees"; "lakhs"; "crore";
    "transfer"; "upi"; "paytm"; "phonepe"; "gpay"; "google pay";
    "loan approved"; "credit card"; "insurance"; "refund"; "cashback";
    "job offer"; "work from home"; "earn money"; "investment";
    "trading"; "bitcoin"; "crypto"; "forex"; "stock tips";
    "customs"; "courier"; "parcel"; "fedex"; "police"; "cbi";
    "narcotics"; "arrest"; "warrant"; "legal action";
    "whatsapp"; "telegram"; "bank"; "rbi"; "sbi"; "hdfc"; "icici";
    "account"; "password"; "pin"; "cvv"; "expire";
    "free"; "offer"; "limited time"; "act now"; "immediately";
    "sextortion"; "video"; "compromise"; "blackmail" ].

Definition SCAM_PHONE_PREFIXES : list string :=
  [ "+91 140";  (* Known spam prefix *)
    "140" ].    (* TRAI-tagged telemarketing *)

(** [.*word.*@.*] *)
Definition lure (word : string) : re :=
  Cat (Star dot) (Cat (lit word) (Cat (Star dot) (Cat (lit "@") (Star dot)))).

Definition SUSPICIOUS_UPI_PATTERNS : list re :=
  [ lure "paytm";     (* Impersonating Paytm *)
    lure "rbi";       (* Impersonating RBI *)
    lure "sbi";       (* Impersonating SBI *)
    lure "refund";    (* Refund scam *)
    lure "lucky";     (* Lottery scam *)
    lure "winner";    (* Prize scam *)
    lure "support";   (* Fake support *)
    lure "helpdesk" ] (* Fake helpdesk *).

(** The loop [for keyword in SCAM_KEYWORDS: if keyword in d: found.append(keyword)]. *)
Fixpoint found_keywords (keywords : list string) (description_lower : string)
  : list string :=
  match keywords with
  | [] => []
  | keyword :: rest =>
      if contains keyword description_lower
      then keyword :: found_keywords rest description_lower
      else found_keywords rest description_lower
  end.

Definition _keyword_score (description : string) : Z * list string :=
  let description_lower := lower description in
  let found := found_keywords SCAM_KEYWORDS description_lower in
  match found with
  | [] => (0, [])
  | _ =>
      (* More keywords = higher score, max 30 *)
      let score := Z.min (len found * 5) 30 in
      (score,
       [ "Contains scam keywords: " ++ join ", " (firstn 5 found)
           ++ (if (len found >? 5)%Z then "..." else "") ])
  end.

Definition _check_phone (value : string) : list Z * list string :=
  let '(scores, factors) :=
    match find (fun prefix => startswith value (remove_char " " (lower prefix)))
               SCAM_PHONE_PREFIXES with
    | Some prefix =>
        ([15], [ "Phone number starts with known spam prefix: " ++ prefix ])
    | None => ([], [])
    end in
  if startswith value "+" && negb (startswith value "+91")
  then ((scores ++ [10])%list, (factors ++ [ "International number (non-Indian)" ])%list)
  else (scores, factors).

(** [^[a-z0-9]{10,}@] *)
Definition random_handle : re :=
  let alnum := Chr (fun c =>
    let n := N_of_ascii c in
    (((97 <=? n) && (n <=? 122)) || ((48 <=? n) && (n <=? 57)))%N) in
  Cat (at_least 10 alnum) (lit "@").

Definition _check_upi (value : string) : list Z * list string :=
  let '(scores, factors) :=
    match find (fun pattern => re_match pattern value) SUSPICIOUS_UPI_PATTERNS with
    | Some _ => ([15], [ "UPI ID matches suspicious pattern" ])
    | None => ([], [])
    end in
  if re_match random_handle value
  then ((scores ++ [5])%list, (factors ++ [ "UPI ID appears randomly generated" ])%list)
  else (scores, factors).

Definition _check_website (value0 : string) : list Z * list string :=
  let value := if negb (startswith value0 "http") then "http://" ++ value0 else value0 in
  let suspicious_tlds := [ ".xyz"; ".top"; ".buzz"; ".club"; ".icu"; ".tk"; ".ml"; ".ga" ] in
  let '(scores, factors) :=
    match find (fun tld => contains tld value) suspicious_tlds with
    | Some tld => ([15], [ "Uses suspicious domain extension: " ++ tld ])
    | None => ([], [])
    end in
  let shorteners := [ "bit.ly"; "tinyurl"; "t.co"; "goo.gl"; "is.gd"; "rebrand.ly" ] in
  match find (fun shortener => contains shortener value) shorteners with
  | Some _ =>
      ((scores ++ [10])%list,
       (factors ++ [ "Uses URL shortener (often used for phishing)" ])%list)
  | None => (scores, factors)
  end.

(** [(bank|sbi|hdfc|icici|rbi|govt|gov)] and [@(gmail|yahoo|hotmail|outlook)] *)
Definition official_name : re :=
  alts (map lit [ "bank"; "sbi"; "hdfc"; "icici"; "rbi"; "govt"; "gov" ]).
Definition free_mail : re :=
  Cat (lit "@") (alts (map lit [ "gmail"; "yahoo"; "hotmail"; "outlook" ])).

Definition _check_email (value : string) : list Z * list string :=
  if re_search official_name value && re_search free_mail value
  then ([20], [ "Email impersonates official entity using free email service" ])
  else ([], []).

Definition _identifier_pattern_score (identifier_type identifier_value : string)
  : Z * list string :=
  let value := lower (strip identifier_value) in
  let '(scores, factors) :=
    if identifier_type =? "phone" then _check_phone value
    else if identifier_type =? "upi" then _check_upi value
    else if identifier_type =? "website" then _check_website value
    else if identifier_type =? "email" then _check_email value
    else ([], []) in
  (Z.min (sum scores) 25, factors).

Definition _report_frequency_score (report_count : Z) : Z * list string :=
  if (report_count =? 0)%Z then (0, [])
  else if (report_count =? 1)%Z then (5, [ "Previously reported once" ])
  else if (report_count <=? 3)%Z then
    (15, [ "Reported " ++ str_int report_count ++ " times before" ])
  else if (report_count <=? 10)%Z then
    (20, [ "Frequently reported (" ++ str_int report_count ++ " times)" ])
  else
    (25, [ "Heavily reported (" ++ str_int report_count
             ++ " times) — likely confirmed scam" ]).

Definition _ai_confidence_score (ai_confidence : option float) : Z * list string :=
  match ai_confidence with
  | None => (0, [])
  | Some c =>
      if fge c 0.9 then
        (20, [ "AI highly confident this is a scam (" ++ format_pct0 c ++ ")" ])
      else if fge c 0.7 then
        (15, [ "AI moderately confident this is a scam (" ++ format_pct0 c ++ ")" ])
      else if fge c 0.5 then
        (10, [ "AI suspects this may be a scam (" ++ format_pct0 c ++ ")" ])
      else if fge c 0.3 then
        (5, [ "AI sees some suspicious signals (" ++ format_pct0 c ++ ")" ])
      else
        (0, [ "AI considers this low risk (" ++ format_pct0 c ++ ")" ])
  end.

Definition _determine_level (score : Z) : string :=
  if (score >=? 75)%Z then "CRITICAL"
  else if (score >=? 50)%Z then "HIGH"
  else if (score >=? 25)%Z then "MEDIUM"
  else "LOW".

(** The dict that [calculate_risk_score] returns. *)
Record RiskResult : Type := mkRisk {
  score : Z;
  level : string;
  factors : list string
}.

Definition calculate_risk_score
    (identifier_type identifier_value description : string)
    (report_count : Z) (ai_confidence : option float) : RiskResult :=
  let total_score := 0 in
  let all_factors : list string := [] in
  (* Factor 1: Keyword analysis (max 30) *)
  let '(kw_score, kw_factors) := _keyword_score description in
  let total_score := total_score + kw_score in
  let all_factors := (all_factors ++ kw_factors)%list in
  (* Factor 2: Identifier pattern (max 25) *)
  let '(id_score, id_factors) :=
    _identifier_pattern_score identifier_type identifier_value in
  let total_score := total_score + id_score in
  let all_factors := (all_factors ++ id_factors)%list in
  (* Factor 3: Report frequency (max 25) *)
  let '(freq_score, freq_factors) := _report_frequency_score report_count in
  let total_score := total_score + freq_score in
  let all_factors := (all_factors ++ freq_factors)%list in
  (* Factor 4: AI confidence (max 20) *)
  let '(ai_score, ai_factors) := _ai_confidence_score ai_confidence in
  let total_score := total_score + ai_score in
  let all_factors := (all_factors ++ ai_factors)%list in
  (* Clamp to 0-100 *)
  let total_score := Z.min (Z.max total_score 0) 100 in
  let level := _determine_level total_score in
  let all_factors :=
    match all_factors with
    | [] => (all_factors ++ [ "No significant risk factors detected" ])%list
    | _ => all_factors
    end in
  mkRisk total_score level all_factors.

End RiskEngine.

(** ** Exceptions and results *)

Module Exc.

(** The exception classes that the program raises or names in a handler.
    [BaseOnly] stands for the classes that derive from [BaseException] but
    not from [Exception] ([KeyboardInterrupt], [SystemExit],
    [asyncio.CancelledError]); [Other] for every other subclass of
    [Exception], such as the network and service errors of the SDK. *)
Inductive exc_class : Type :=
| BaseOnly (name : string)
| Other (name : string)
| ValueError
| JSONDecodeError
| KeyError
| AttributeError
| TypeError
| OverflowError.

(** An exception [e], with its class and [str(e)]. *)
Record exn : Type := mkExn { exc_cls : exc_class; exc_str : string }.

(** [isinstance(e, Exception)] *)
Definition is_Exception (c : exc_class) : bool :=
  match c with
  | BaseOnly _ => false
  | _ => true
  end.

(** [isinstance(e, (json.JSONDecodeError, ValueError, KeyError))];
    [JSONDecodeError] derives from [ValueError]. *)
Definition is_parse_error (c : exc_class) : bool :=
  match c with
  | ValueError | JSONDecodeError | KeyError => true
  | _ => false
  end.

Inductive result (A : Type) : Type :=
| Return (a : A)
| Raise (e : exn).
Arguments Return {A} a.
Arguments Raise {A} e.

Definition bind {A B} (m : result A) (k : A -> result B) : result B :=
  match m with
  | Return a => k a
  | Raise e => Raise e
  end.

Definition raise {A} (c : exc_class) (msg : string) : result A :=
  Raise (mkExn c msg).

(** [try: m  except <classes accepted by handles> as e: h e] *)
Definition try_except {A} (m : result A) (handles : exc_class -> bool)
    (h : exn -> result A) : result A :=
  match m with
  | Return a => Return a
  | Raise e => if handles (exc_cls e) then h e else Raise e
  end.

Definition returns {A} (m : result A) : bool :=
  match m with
  | Return _ => true
  | Raise _ => false
  end.

End Exc.

Declare Scope exc_scope.
Delimit Scope exc_scope with exc.
Notation "x <- m ;; k" := (Exc.bind m (fun x => k))
  (at level 61, m at next level, right associativity) : exc_scope.

(** ** [backend/gemini_service.py] *)

Module GeminiService.
Import Py Exc.

(** What [json.loads] returns. *)
Inductive json : Type :=
| JNull : json
| JBool : bool -> json
| JInt : Z -> json
| JFloat : float -> json
| JStr : string -> json
| JArr : list json -> json
| JObj : list (string * json) -> json.

(** The dict that the service returns (the shape of [AIAnalysisResult]). *)
Record AIResult : Type := mkAI {
  is_scam : bool;
  confidence : float;
  scam_type : string;
  explanation : string;
  advice : string;
  error : option string
}.

Definition type_name (v : json) : string :=
  match v with
  | JNull => "NoneType"
  | JBool _ => "bool"
  | JInt _ => "int"
  | JFloat _ => "float"
  | JStr _ => "str"
  | JArr _ => "list"
  | JObj _ => "dict"
  end.

(** [result.get(key, default)]: a [dict] method, missing on every other
    value that [json.loads] can return. *)
Definition get (result : json) (key : string) (default : json) : Exc.result json :=
  match result with
  | JObj items =>
      match find (fun kv => fst kv =? key) items with
      | Some kv => Return (snd kv)
      | None => Return default
      end
  | _ => raise AttributeError
           ("'" ++ type_name result ++ "' object has no attribute 'get'")
  end.

(** [bool(v)] *)
Definition py_bool (v : json) : bool :=
  match v with
  | JNull => false
  | JBool b => b
  | JInt n => negb (n =? 0)%Z
  | JFloat x => negb (PrimFloat.eqb x 0)
  | JStr s => negb (s =? "")
  | JArr l => negb (Nat.eqb (List.length l) 0)
  | JObj l => negb (Nat.eqb (List.length l) 0)
  end.

(** The environment of the module: whether the SDK could be imported, the
    [GEMINI_API_KEY] variable ([""] when unset), and the library functions
    that the embedding does not unfold. *)
Record Env : Type := mkEnv {
  GENAI_AVAILABLE : bool;
  GEMINI_API_KEY : string;
  (** [GenerativeModel(...).generate_content(prompt).text] *)
  generate_content_text : string -> Exc.result string;
  (** [json.loads] *)
  json_loads : string -> Exc.result json;
  (** [float(s)] for a [str], [None] when it raises [ValueError] *)
  float_of_str : string -> option float;
  (** [repr(v)] *)
  py_repr : json -> string
}.

Section Service.

Variable env : Env.

(** [float(v)] *)
Definition py_float (v : json) : Exc.result float :=
  match v with
  | JBool b => Return (if b then 1 else 0)%float
  | JInt n =>
      match float_of_int n with
      | Some x => Return x
      | None => raise OverflowError "int too large to convert to float"
      end
  | JFloat x => Return x
  | JStr s =>
      match float_of_str env s with
      | Some x => Return x
      | None => raise ValueError ("could not convert string to float: " ++ py_repr env v)
      end
  | _ => raise TypeError
           ("float() argument must be a string or a real number, not '"
              ++ type_name v ++ "'")
  end.

(** [str(v)] *)
Definition py_str (v : json) : string :=
  match v with
  | JStr s => s
  | JNull => "None"
  | JBool b => if b then "True" else "False"
  | JInt n => str_int n
  | _ => py_repr env v
  end.

Definition _configure_api : bool :=
  let api_key := GEMINI_API_KEY env in
  if api_key =? "" then false else true.

(** [re.sub(r"^```(?:json)?\s*", "", text)] *)
Definition strip_opening_fence (text : string) : string :=
  if startswith text "```" then
    let rest := drop 3 text in
    lstrip (if startswith rest "json" then drop 4 rest else rest)
  else text.

(** [re.sub(r"\s*```$", "", text)]; the dollar also matches just before a
    final line feed, which is then kept. *)
Definition strip_closing_fence (text : string) : string :=
  if endswith text "```" then rstrip (drop_last 3 text)
  else if endswith text ("```" ++ String "010" "") then
    rstrip (drop_last 4 text) ++ String "010" ""
  else text.

(** The body of the [try] statement of [_parse_response]. *)
Definition parse_json_fields (text : string) : Exc.result AIResult :=
  (result <- json_loads env text ;;
   v_is_scam <- get result "is_scam" (JBool false) ;;
   v_confidence <- get result "confidence" (JFloat 0) ;;
   f_confidence <- py_float v_confidence ;;
   v_scam_type <- get result "scam_type" (JStr "unknown") ;;
   v_explanation <- get result "explanation" (JStr "") ;;
   v_advice <- get result "advice" (JStr "") ;;
   Return (mkAI (py_bool v_is_scam) f_confidence (py_str v_scam_type)
                (py_str v_explanation) (py_str v_advice) None))%exc.

Definition _parse_response (text : string) : Exc.result AIResult :=
  (* Try to extract JSON from the response *)
  let text := strip text in
  (* Remove markdown code fences if present *)
  let text := strip_opening_fence text in
  let text := strip_closing_fence text in
  try_except
    (parse_json_fields text)
    is_parse_error
    (fun e =>
       Return (mkAI false 0 "unknown" (take 500 text)
                    "Could not parse AI response. Please try again."
                    (Some ("Parse error: " ++ exc_str e)))).

Definition NL : string := String "010" "".

(** [if s: ...] for an optional string. *)
Definition truthy (s : option string) : bool :=
  match s with
  | Some v => negb (v =? "")
  | None => false
  end.

Definition opt_str (s : option string) : string :=
  match s with
  | Some v => v
  | None => "None"
  end.

(** The user prompt that [analyze_scam_report] builds. *)
Definition build_user_prompt (description : string)
    (identifier_type identifier_value : option string) : string :=
  let user_prompt := "Analyze the following for potential scam/fraud:" ++ NL ++ NL in
  let user_prompt :=
    if truthy identifier_type && truthy identifier_value then
      user_prompt ++ "Identifier Type: " ++ opt_str identifier_type ++ NL
                  ++ "Identifier Value: " ++ opt_str identifier_value ++ NL ++ NL
    else user_prompt in
  user_prompt ++ "Content/Description:" ++ NL ++ description.

Definition analyze_scam_report (description : string)
    (identifier_type identifier_value : option string) : Exc.result AIResult :=
  (* Check if genai is available *)
  if negb (GENAI_AVAILABLE env) then
    Return (mkAI false 0 "unknown"
      "AI analysis unavailable — google-generativeai package not installed."
      "Install the package: pip install google-generativeai"
      (Some "google-generativeai not installed"))
  (* Check API key *)
  else if negb _configure_api then
    Return (mkAI false 0 "unknown"
      "AI analysis unavailable — no API key configured."
      "Set the GEMINI_API_KEY environment variable to enable AI analysis."
      (Some "No GEMINI_API_KEY set"))
  else
    let user_prompt := build_user_prompt description identifier_type identifier_value in
    try_except
      (text <- generate_content_text env user_prompt ;;
       _parse_response text)%exc
      is_Exception
      (fun e =>
         Return (mkAI false 0 "unknown"
           ("AI analysis failed: " ++ exc_str e)
           "The AI service is temporarily unavailable. Risk score is based on pattern matching only."
           (Some (exc_str e)))).

End Service.

(** The fallback shape: not a scam, confidence 0.0, type "unknown", an
    explanatory message and an error that is not [None]. *)
Definition is_fallback (r : AIResult) : Prop :=
  is_scam r = false /\ confidence r = 0%float /\ scam_type r = "unknown"
  /\ advice r <> "" /\ error r <> None.

End GeminiService.

(** ** [backend/database.py]: the [fraud_reports] table *)

Module Database.
Import Py Exc.

(** A row of [fraud_reports]. *)
Record Row : Type := mkRow {
  id : Z;
  identifier_type : string;
  identifier_value : string;
  description : string;
  category : string;
  risk_score : Z;
  risk_level : string;
  risk_factors : string;
  ai_analysis : string;
  reporter_name : string;
  reported_at : string
}.

(** The table in insertion order, and the largest row id handed out so far
    (the [AUTOINCREMENT] counter). *)
Record DB : Type := mkDB {
  fraud_reports : list Row;
  last_id : Z
}.

Definition empty : DB := mkDB [] 0.

(** The [CHECK] constraint of the [identifier_type] column. *)
Definition check_identifier_type (t : string) : bool :=
  existsb (String.eqb t) [ "phone"; "upi"; "website"; "email"; "other" ].

Definition MAX_ROWID : Z := 9223372036854775807.

(** [insert_report(...)] at the instant [now] ([datetime.utcnow().isoformat()]):
    the new database and [cursor.lastrowid]. *)
Definition insert_report (db : DB)
    (identifier_type identifier_value description category : string)
    (risk_score : Z) (risk_level risk_factors ai_analysis reporter_name : string)
    (now : string) : Exc.result (DB * Z) :=
  if negb (check_identifier_type identifier_type) then
    raise (Other "sqlite3.IntegrityError") "CHECK constraint failed: fraud_reports"
  else if (last_id db >=? MAX_ROWID)%Z then
    raise (Other "sqlite3.OperationalError") "database or disk is full"
  else
    let report_id := last_id db + 1 in
    let row := mkRow report_id identifier_type (lower (strip identifier_value))
                     description category risk_score risk_level risk_factors
                     ai_analysis reporter_name now in
    Return (mkDB (fraud_reports db ++ [row])%list report_id, report_id).

(** [ORDER BY reported_at DESC], by insertion; rows with equal time stamps
    keep their table order (SQL leaves their order open). *)
Fixpoint insert_desc (r : Row) (l : list Row) : list Row :=
  match l with
  | [] => [r]
  | r' :: l' =>
      if String.ltb (reported_at r) (reported_at r')
      then r' :: insert_desc r l'
      else r :: l
  end.

Definition order_by_reported_at_desc (l : list Row) : list Row :=
  fold_right insert_desc [] l.

(** [WHERE identifier_value = ?] *)
Definition where_identifier_value (v : string) (l : list Row) : list Row :=
  filter (fun r => identifier_value r =? v) l.

Definition get_reports_by_identifier (db : DB) (identifier_value : string)
  : list Row :=
  order_by_reported_at_desc
    (where_identifier_value (lower (strip identifier_value)) (fraud_reports db)).

Definition get_report_count_for_identifier (db : DB) (identifier_value : string)
  : Z :=
  len (where_identifier_value (lower (strip identifier_value)) (fraud_reports db)).

(** A bound parameter must fit an SQLite INTEGER (64 bits); the binding
    raises [OverflowError] otherwise. *)
Definition fits_int64 (n : Z) : bool :=
  ((- 9223372036854775808 <=? n) && (n <=? 9223372036854775807))%Z.

(** [LIMIT limit OFFSET offset]: a negative limit means no limit, a negative
    offset means none. *)
Definition limit_offset {A} (limit offset : Z) (l : list A) : list A :=
  let rest := skipn (Z.to_nat (Z.max offset 0)) l in
  if (limit <? 0)%Z then rest else firstn (Z.to_nat limit) rest.

Definition get_all_reports (db : DB) (limit offset : Z) : Exc.result (list Row) :=
  if negb (fits_int64 limit && fits_int64 offset) then
    raise OverflowError "Python int too large to convert to SQLite INTEGER"
  else
    Return (limit_offset limit offset
              (order_by_reported_at_desc (fraud_reports db))).

(** [SELECT key, COUNT( * ) ... GROUP BY key]: one entry per value of the
    key, with the number of its rows; the groups are listed by first
    appearance (SQL leaves their order open). *)
Fixpoint add_to_group (k : string) (groups : list (string * Z))
  : list (string * Z) :=
  match groups with
  | [] => [(k, 1)]
  | (k', n) :: rest =>
      if k' =? k then (k', n + 1) :: rest else (k', n) :: add_to_group k rest
  end.

Definition group_count (key : Row -> string) (l : list Row) : list (string * Z) :=
  fold_left (fun groups r => add_to_group (key r) groups) l [].

(** [ORDER BY count DESC], by insertion. *)
Fixpoint insert_count_desc (g : string * Z) (l : list (string * Z))
  : list (string * Z) :=
  match l with
  | [] => [g]
  | g' :: l' =>
      if (snd g <? snd g')%Z then g' :: insert_count_desc g l' else g :: l
  end.

Definition order_by_count_desc (l : list (string * Z)) : list (string * Z) :=
  fold_right insert_count_desc [] l.

(** The columns of the recent-reports query. *)
Record RecentRow : Type := mkRecent {
  recent_id : Z;
  recent_identifier_type : string;
  recent_identifier_value : string;
  recent_category : string;
  recent_risk_score : Z;
  recent_risk_level : string;
  recent_reported_at : string
}.

Definition recent_columns (r : Row) : RecentRow :=
  mkRecent (id r) (identifier_type r) (identifier_value r) (category r)
           (risk_score r) (risk_level r) (reported_at r).

(** The dict that [get_dashboard_stats] returns. *)
Record Stats : Type := mkStats {
  total_reports : Z;
  unique_identifiers : Z;
  high_risk_count : Z;
  by_category : list (string * Z);
  by_type : list (string * Z);
  risk_distribution : list (string * Z);
  recent_reports : list RecentRow
}.

Definition get_dashboard_stats (db : DB) : Stats :=
  let rows := fraud_reports db in
  (* Total reports *)
  let total := len rows in
  (* Reports by category *)
  let by_category := firstn 10 (order_by_count_desc (group_count category rows)) in
  (* Reports by identifier type *)
  let by_type := order_by_count_desc (group_count identifier_type rows) in
  (* Risk distribution *)
  let risk_dist := group_count risk_level rows in
  (* Recent 10 reports *)
  let recent := map recent_columns (firstn 10 (order_by_reported_at_desc rows)) in
  (* Unique identifiers flagged *)
  let unique_ids := len (group_count identifier_value rows) in
  (* High risk count *)
  let high_risk :=
    len (filter (fun r => existsb (String.eqb (risk_level r)) ["HIGH"; "CRITICAL"])
                rows) in
  mkStats total unique_ids high_risk by_category by_type risk_dist recent.

End Database.

(** ** [backend/routes/reports.py] *)

Module Reports.
Import Py Exc.

(** The request body [ReportCreate]. *)
Record ReportCreate : Type := mkReport {
  identifier_type : string;
  identifier_value : string;
  description : string;
  reporter_name : string
}.

Record SubmitReportResponse : Type := mkSubmitted {
  message : string;
  report_id : Z;
  risk : RiskEngine.RiskResult;
  ai_analysis : GeminiService.AIResult
}.

Record LookupResponse : Type := mkLookup {
  identifier : string;
  report_count : Z;
  lookup_risk : option RiskEngine.RiskResult;
  reports : list Database.Row
}.

(** [ai_result.get("confidence") if ai_result.get("is_scam") else None] *)
Definition derive_ai_confidence (ai_result : GeminiService.AIResult)
  : option float :=
  if GeminiService.is_scam ai_result
  then Some (GeminiService.confidence ai_result)
  else None.

(** The category stored with the report. *)
Definition derive_category (ai_result : GeminiService.AIResult) : string :=
  let category := GeminiService.scam_type ai_result in
  if (category =? "unknown") && GeminiService.is_scam ai_result
  then "suspected_scam"
  else category.

Section Routes.

Variable env : GeminiService.Env.
(** [json.dumps] of the factor list and of the AI result. *)
Variable dumps_factors : list string -> string.
Variable dumps_ai : GeminiService.AIResult -> string.

(** [POST /api/reports/] on the database [db] at the instant [now]. *)
Definition submit_report (db : Database.DB) (report : ReportCreate)
    (now : string) : Exc.result (Database.DB * SubmitReportResponse) :=
  (* Get existing report count for this identifier *)
  let report_count :=
    Database.get_report_count_for_identifier db (identifier_value report) in
  (* Run AI analysis *)
  (ai_result <- GeminiService.analyze_scam_report env (description report)
                  (Some (identifier_type report)) (Some (identifier_value report)) ;;
   (* Calculate risk score *)
   let ai_confidence := derive_ai_confidence ai_result in
   let risk :=
     RiskEngine.calculate_risk_score (identifier_type report)
       (identifier_value report) (description report) report_count
       ai_confidence in
   (* Determine category from AI or fallback *)
   let category := derive_category ai_result in
   (* Store in database *)
   stored <- Database.insert_report db (identifier_type report)
               (identifier_value report) (description report) category
               (RiskEngine.score risk) (RiskEngine.level risk)
               (dumps_factors (RiskEngine.factors risk)) (dumps_ai ai_result)
               (reporter_name report) now ;;
   let '(db', report_id) := stored in
   Return (db', mkSubmitted "Report submitted successfully" report_id risk
                  ai_result))%exc.

(** [GET /api/reports/lookup/{identifier}] *)
Definition lookup_identifier (db : Database.DB) (identifier : string)
  : LookupResponse :=
  let reports := Database.get_reports_by_identifier db identifier in
  let report_count := len reports in
  let risk :=
    if (report_count >? 0)%Z then
      (* Recalculate aggregate risk based on all reports *)
      match reports with
      | latest :: _ =>
          Some (RiskEngine.calculate_risk_score
                  (Database.identifier_type latest) identifier
                  (Database.description latest) report_count None)
      | [] => None
      end
    else None in
  mkLookup identifier report_count risk reports.

End Routes.

(** [GET /api/reports/]: [limit] in 1..200 (default 50) and [offset] >= 0
    (default 0), a request outside these bounds being refused by the
    validation of the query parameters. *)
Definition list_reports (db : Database.DB) (limit offset : option Z)
  : Exc.result (list Database.Row) :=
  let limit := match limit with Some n => n | None => 50 end in
  let offset := match offset with Some n => n | None => 0 end in
  if negb ((1 <=? limit)%Z && (limit <=? 200)%Z && (0 <=? offset)%Z) then
    raise (Other "RequestValidationError") "query parameter out of range"
  else Database.get_all_reports db limit offset.

End Reports.

(** ** [backend/routes/analysis.py] and [backend/routes/dashboard.py] *)

Module Analysis.

(** The request body [AnalysisRequest]. *)
Record AnalysisRequest : Type := mkRequest {
  message : string;
  identifier_type : option string;
  identifier_value : option string
}.

(** [POST /api/analysis/] *)
Definition analyze_content (env : GeminiService.Env) (request : AnalysisRequest)
  : Exc.result GeminiService.AIResult :=
  GeminiService.analyze_scam_report env (message request)
    (identifier_type request) (identifier_value request).

End Analysis.

Module Dashboard.

(** [GET /api/dashboard/stats] *)
Definition dashboard_stats (db : Database.DB) : Database.Stats :=
  Database.get_dashboard_stats db.

End Dashboard.

(** ** What the specification calls a case-insensitive substring *)

Module Spec.
Import Py.

(** Two characters that differ at most by case. *)
Definition same_letter (a b : ascii) : bool :=
  Ascii.eqb (lower_char a) (lower_char b).

(** [term] is read at the start of [d], case ignored. *)
Fixpoint reads_at_start (d term : string) {struct term} : bool :=
  match term with
  | EmptyString => true
  | String a term' =>
      match d with
      | EmptyString => false
      | String b d' => same_letter a b && reads_at_start d' term'
      end
  end.

(** [term] occurs somewhere in [d], case ignored. *)
Fixpoint occurs_ignoring_case (term d : string) : bool :=
  reads_at_start d term ||
  match d with
  | EmptyString => false
  | String _ d' => occurs_ignoring_case term d'
  end.

(** The terms of the keyword list that occur in [d], in list order. *)
Definition matched_terms (d : string) : list string :=
  filter (fun term => occurs_ignoring_case term d) RiskEngine.SCAM_KEYWORDS.

(** A list without repetition, decided. *)
Fixpoint distinct (l : list string) : bool :=
  match l with
  | [] => true
  | x :: l' => negb (existsb (String.eqb x) l') && distinct l'
  end.

(** [a <= b] for two positive finite binary64 values, read off their
    mantissas and exponents. *)
Definition sf_pos_le (a b : spec_float) : bool :=
  match a, b with
  | S754_finite false m1 e1, S754_finite false m2 e2 =>
      (e1 <? e2)%Z || ((e1 =? e2)%Z && (m1 <=? m2)%positive)
  | _, _ => false
  end.

End Spec.

(** ** The scenarios of the specification *)

Module Scenarios.

Definition kyc_scenario : string :=
  "URGENT! Your account will be blocked, verify KYC now or pay via UPI".

(** A service whose every call fails with a network error. *)
Definition offline_env : GeminiService.Env :=
  GeminiService.mkEnv true "key"
    (fun _ => Exc.Raise (Exc.mkExn (Exc.Other "ConnectionError") "network is unreachable"))
    (fun _ => Exc.Raise (Exc.mkExn Exc.JSONDecodeError "Expecting value: line 1 column 1 (char 0)"))
    (fun _ => None)
    (fun _ => "?").

(** A service that answers every prompt with [answer], a JSON text that
    [json.loads] reads as [value]. *)
Definition answering_env (answer : string) (value : GeminiService.json)
  : GeminiService.Env :=
  GeminiService.mkEnv true "key"
    (fun _ => Exc.Return answer)
    (fun text =>
       if text =? answer then Exc.Return value
       else Exc.Raise (Exc.mkExn Exc.JSONDecodeError "Expecting value: line 1 column 1 (char 0)"))
    (fun _ => None)
    (fun _ => "?").

(** A stand-in for [json.dumps] on the factor list. *)
Definition dumps_list (l : list string) : string :=
  "[" ++ Py.join ", " l ++ "]".

(** A stand-in for [json.dumps] on the AI result. *)
Definition dumps_result (r : GeminiService.AIResult) : string :=
  "{explanation: " ++ GeminiService.explanation r ++ "}".

(** The AI answers "not a scam" with confidence 0.95. *)
Definition not_scam_env : GeminiService.Env :=
  answering_env "{}"
    (GeminiService.JObj
       [ ("is_scam", GeminiService.JBool false);
         ("confidence", GeminiService.JFloat 0.95) ]).

Definition phone_report : Reports.ReportCreate :=
  Reports.mkReport "phone" "+91 140 1234567" kyc_scenario "Anonymous".

End Scenarios.

(** ** Auxiliary notions of the later sections *)

Module Shapes.

(** A string that is empty or starts with a character that is no space. *)
Definition starts_clean (s : string) : bool :=
  match s with
  | EmptyString => true
  | String c _ => negb (Py.isspace c)
  end.

(** Every character of [s] satisfies [p]. *)
Fixpoint all_chars (p : ascii -> bool) (s : string) : bool :=
  match s with
  | EmptyString => true
  | String c s' => p c && all_chars p s'
  end.

(** [s] holds no line feed. *)
Definition one_line (s : string) : bool :=
  all_chars (fun c => negb (Ascii.eqb c "010"%char)) s.

(** A lower-case letter or a digit. *)
Definition lower_alnum (c : ascii) : bool :=
  let n := N_of_ascii c in
  (((97 <=? n) && (n <=? 122)) || ((48 <=? n) && (n <=? 57)))%N.

(** The words of [SUSPICIOUS_UPI_PATTERNS], and the two word lists of the
    email check. *)
Definition upi_lure_words : list string :=
  [ "paytm"; "rbi"; "sbi"; "refund"; "lucky"; "winner"; "support"; "helpdesk" ].
Definition official_words : list string :=
  [ "bank"; "sbi"; "hdfc"; "icici"; "rbi"; "govt"; "gov" ].
Definition free_mail_hosts : list string :=
  [ "gmail"; "yahoo"; "hotmail"; "outlook" ].

(** The risk levels in increasing order. *)
Definition level_rank (level : string) : Z :=
  if level =? "CRITICAL" then 3
  else if level =? "HIGH" then 2
  else if level =? "MEDIUM" then 1
  else 0.

Definition NO_FACTORS : string := "No significant risk factors detected".

(** The row [a] is at least as recent as the row [b]. *)
Definition not_older (a b : Database.Row) : Prop :=
  String.leb (Database.reported_at b) (Database.reported_at a) = true.

(** Row ids are distinct and at most the counter, and every stored
    identifier is in normalized form. *)
Definition well_formed (db : Database.DB) : Prop :=
  NoDup (map Database.id (Database.fraud_reports db))
  /\ Forall (fun r => Database.id r <= Database.last_id db)
            (Database.fraud_reports db)
  /\ Forall (fun r => Py.lower (Py.strip (Database.identifier_value r))
                      = Database.identifier_value r)
            (Database.fraud_reports db).

(** The number of rows of [l] whose column [key] is [k]. *)
Definition rows_with (key : Database.Row -> string) (k : string)
    (l : list Database.Row) : Z :=
  Py.len (filter (fun r => key r =? k) l).

(** The sum of the counts of a grouped result. *)
Definition total_count (groups : list (string * Z)) : Z :=
  fold_right (fun g acc => snd g + acc) 0 groups.

(** The count listed for the key [k] in a grouped result, 0 when absent. *)
Definition count_in (k : string) (groups : list (string * Z)) : Z :=
  match find (fun g => fst g =? k) groups with
  | Some g => snd g
  | None => 0
  end.


(** The text that [_parse_response] hands to [json.loads]. *)
Definition cleaned (text : string) : string :=
  GeminiService.strip_closing_fence
    (GeminiService.strip_opening_fence (Py.strip text)).

(** [body] inside a Markdown code fence with the given language tag. *)
Definition fenced (tag body : string) : string :=
  "```" ++ tag ++ GeminiService.NL ++ body ++ GeminiService.NL ++ "```".

(** A service whose call is interrupted from the keyboard. *)
Definition interrupted_env : GeminiService.Env :=
  GeminiService.mkEnv true "key"
    (fun _ => Exc.Raise (Exc.mkExn (Exc.BaseOnly "KeyboardInterrupt") "interrupted"))
    (fun _ => Exc.Raise (Exc.mkExn Exc.JSONDecodeError "Expecting value"))
    (fun _ => None)
    (fun _ => "?").

End Shapes.

(** ** The string operations and the matcher against their meaning *)

Module PyFacts.
Import Py Regex.

(** The operations on sample values. *)
Example strip_lower_sample :
  lower (strip "  +91 140 1234567 ") = "+91 140 1234567"
  /\ remove_char " " (lower "+91 140") = "+91140"
  /\ join ", " ["a"; "b"; "c"] = "a, b, c"
  /\ map str_int [0; 12; -7] = ["0"; "12"; "-7"].
Proof. repeat split. Qed.

Example format_pct0_sample :
  map format_pct0 [0.95; 0.3; 0.005; 0.015; 0.025; 1; 0; -0.001; nan]%float
  = ["95%"; "30%"; "0%"; "2%"; "2%"; "100%"; "0%"; "-0%"; "nan%"].
Proof. vm_compute. reflexivity. Qed.

Example fences_sample :
  let fenced := "```json" ++ GeminiService.NL ++ "{}" ++ GeminiService.NL ++ "```" in
  GeminiService.strip_closing_fence
    (GeminiService.strip_opening_fence (strip fenced)) = "{}".
Proof. reflexivity. Qed.

(** [s.startswith(p)] holds exactly when [s] is [p] followed by something. *)
Lemma startswith_iff (s p : string) :
  startswith s p = true <-> exists rest, s = p ++ rest.
Proof.
  revert s. induction p as [|a p IH]; intros s; simpl.
  - split; [intros _; exists s; reflexivity|reflexivity].
  - destruct s as [|b s].
    + split; [discriminate|intros [rest H]; discriminate H].
    + rewrite andb_true_iff, Ascii.eqb_eq, IH. split.
      * intros [-> [rest ->]]. exists rest. reflexivity.
      * intros [rest [= -> ->]]. split; [reflexivity|exists rest; reflexivity].
Qed.

(** [sub in s] holds exactly when [s] is cut in three around [sub]. *)
Lemma contains_iff (sub s : string) :
  contains sub s = true <-> exists before after, s = before ++ sub ++ after.
Proof.
  induction s as [|c s IH]; simpl.
  - rewrite orb_false_r, startswith_iff. split.
    + intros [rest H]. exists "", rest. exact H.
    + intros [[|x before] [after H]]; [exists after; exact H|discriminate H].
  - rewrite orb_true_iff, startswith_iff, IH. split.
    + intros [[rest H]|[before [after H]]].
      * exists "", rest. exact H.
      * exists (String c before), after. simpl. now rewrite H.
    + intros [[|x before] [after H]].
      * left. exists after. exact H.
      * right. simpl in H. injection H as _ H. exists before, after. exact H.
Qed.

Lemma lang_Cat_inv (r1 r2 : re) (s : string) :
  lang (Cat r1 r2) s -> exists s1 s2, s = s1 ++ s2 /\ lang r1 s1 /\ lang r2 s2.
Proof.
  intros H. inversion H; subst. eexists. eexists.
  split; [reflexivity|]. split; assumption.
Qed.

Lemma lang_Alt_inv (r1 r2 : re) (s : string) :
  lang (Alt r1 r2) s -> lang r1 s \/ lang r2 s.
Proof. intros H. inversion H; subst; [left|right]; assumption. Qed.

Lemma nullable_lang (r : re) : nullable r = true <-> lang r "".
Proof.
  induction r as [| |p|r1 IH1 r2 IH2|r1 IH1 r2 IH2|r IH]; simpl.
  - split; [discriminate|intros H; inversion H].
  - split; [intros _; constructor|reflexivity].
  - split; [discriminate|intros H; inversion H].
  - rewrite andb_true_iff, IH1, IH2. split.
    + intros [H1 H2]. apply (lang_Cat r1 r2 "" "" H1 H2).
    + intros H. apply lang_Cat_inv in H as [s1 [s2 [E [H1 H2]]]].
      destruct s1; [|discriminate]. destruct s2; [|discriminate].
      split; assumption.
  - rewrite orb_true_iff, IH1, IH2. split.
    + intros [H|H]; [apply lang_Alt_l|apply lang_Alt_r]; exact H.
    + apply lang_Alt_inv.
  - split; [intros _; constructor|reflexivity].
Qed.

Lemma cat_lang (r1 r2 : re) (s : string) :
  lang (cat r1 r2) s <-> lang (Cat r1 r2) s.
Proof.
  assert (V1 : forall r t, lang (Cat Void r) t -> False).
  { intros r t H. apply lang_Cat_inv in H as [s1 [s2 [_ [H1 _]]]]. inversion H1. }
  assert (V2 : forall r t, lang (Cat r Void) t -> False).
  { intros r t H. apply lang_Cat_inv in H as [s1 [s2 [_ [_ H2]]]]. inversion H2. }
  assert (E1 : forall r t, lang r t <-> lang (Cat Eps r) t).
  { intros r t. split.
    - intros H. apply (lang_Cat Eps r "" t); [constructor|exact H].
    - intros H. apply lang_Cat_inv in H as [s1 [s2 [-> [H1 H2]]]].
      inversion H1; subst. exact H2. }
  destruct r1; destruct r2; simpl; try reflexivity;
    try solve [split; [intros H; inversion H|intros H; exfalso; eauto]];
    try apply E1.
Qed.

Lemma alt_lang (r1 r2 : re) (s : string) :
  lang (alt r1 r2) s <-> lang (Alt r1 r2) s.
Proof.
  assert (L : forall r t, lang r t <-> lang (Alt Void r) t).
  { intros r t. split; [apply lang_Alt_r|].
    intros H. apply lang_Alt_inv in H as [H|H]; [inversion H|exact H]. }
  assert (R : forall r t, lang r t <-> lang (Alt r Void) t).
  { intros r t. split; [apply lang_Alt_l|].
    intros H. apply lang_Alt_inv in H as [H|H]; [exact H|inversion H]. }
  destruct r1; destruct r2; simpl; try reflexivity; try apply L; try apply R.
Qed.

(** A non-empty string of a star starts with a non-empty string of its body. *)
Lemma lang_Star_cons (r : re) (c : ascii) (s : string) :
  lang (Star r) (String c s) ->
  exists s1 s2, s = s1 ++ s2 /\ lang r (String c s1) /\ lang (Star r) s2.
Proof.
  intros H. remember (Star r) as r0 eqn:Er. remember (String c s) as t eqn:Et.
  revert s Et.
  induction H as [| | | | | |r' s1 s2 H1 _ H2 IH2]; intros tl Et;
    try discriminate.
  injection Er as ->.
  destruct s1 as [|c1 s1].
  - apply IH2; [reflexivity|exact Et].
  - simpl in Et. injection Et as -> <-.
    exists s1, s2. repeat split; assumption.
Qed.

Lemma deriv_lang (c : ascii) (r : re) (s : string) :
  lang (deriv c r) s <-> lang r (String c s).
Proof.
  revert s.
  induction r as [| |p|r1 IH1 r2 IH2|r1 IH1 r2 IH2|r IH]; intros s; simpl.
  - split; intros H; inversion H.
  - split; intros H; inversion H.
  - destruct (p c) eqn:E; split; intros H.
    + inversion H; subst. constructor. exact E.
    + inversion H; subst. constructor.
    + inversion H.
    + inversion H; subst. congruence.
  - rewrite alt_lang. split.
    + intros H. apply lang_Alt_inv in H as [H1|H1].
      * apply cat_lang, lang_Cat_inv in H1 as [s1 [s2 [-> [Ha Hb]]]].
        apply IH1 in Ha. apply (lang_Cat r1 r2 (String c s1) s2 Ha Hb).
      * destruct (nullable r1) eqn:N; [|inversion H1].
        apply nullable_lang in N. apply IH2 in H1.
        apply (lang_Cat r1 r2 "" (String c s) N H1).
    + intros H. apply lang_Cat_inv in H as [s1 [s2 [E [Ha Hb]]]].
      destruct s1 as [|c1 s1].
      * simpl in E. subst s2. apply lang_Alt_r.
        apply nullable_lang in Ha. rewrite Ha. apply IH2, Hb.
      * simpl in E. injection E as <- ->. apply lang_Alt_l, cat_lang.
        apply lang_Cat; [apply IH1, Ha|exact Hb].
  - rewrite alt_lang. split.
    + intros H. apply lang_Alt_inv in H as [H|H];
        [apply lang_Alt_l, IH1|apply lang_Alt_r, IH2]; assumption.
    + intros H. apply lang_Alt_inv in H as [H|H];
        [apply lang_Alt_l, IH1|apply lang_Alt_r, IH2]; assumption.
  - rewrite cat_lang. split.
    + intros H. apply lang_Cat_inv in H as [s1 [s2 [-> [Ha Hb]]]].
      apply IH in Ha. apply (lang_Star_app r (String c s1) s2 Ha Hb).
    + intros H. apply lang_Star_cons in H as [s1 [s2 [-> [Ha Hb]]]].
      apply lang_Cat; [apply IH, Ha|exact Hb].
Qed.

(** The matcher decides the language. *)
Lemma fullmatch_lang (r : re) (s : string) :
  fullmatch r s = true <-> lang r s.
Proof.
  revert r. induction s as [|c s IH]; intros r; simpl.
  - apply nullable_lang.
  - rewrite IH. apply deriv_lang.
Qed.

Lemma lang_Star_anychar (s : string) : lang (Star anychar) s.
Proof.
  induction s as [|c s IH]; [constructor|].
  apply (lang_Star_app anychar (String c "") s); [now constructor|exact IH].
Qed.

(** [re.match(r, s)] succeeds exactly when a prefix of [s] is in the
    language of [r]. *)
Lemma re_match_iff (r : re) (s : string) :
  re_match r s = true <-> exists s1 s2, s = s1 ++ s2 /\ lang r s1.
Proof.
  unfold re_match. rewrite fullmatch_lang. split.
  - intros H. apply lang_Cat_inv in H as [s1 [s2 [-> [H1 _]]]].
    exists s1, s2. split; [reflexivity|exact H1].
  - intros [s1 [s2 [-> H1]]].
    apply lang_Cat; [exact H1|apply lang_Star_anychar].
Qed.

(** [re.search(r, s)] succeeds exactly when a substring of [s] is in the
    language of [r]. *)
Lemma re_search_iff (r : re) (s : string) :
  re_search r s = true <->
  exists s0 s1 s2, s = s0 ++ s1 ++ s2 /\ lang r s1.
Proof.
  unfold re_search. rewrite fullmatch_lang. split.
  - intros H. apply lang_Cat_inv in H as [s0 [t [-> [_ H2]]]].
    apply lang_Cat_inv in H2 as [s1 [s2 [-> [H1 _]]]].
    exists s0, s1, s2. split; [reflexivity|exact H1].
  - intros [s0 [s1 [s2 [-> H1]]]].
    apply lang_Cat; [apply lang_Star_anychar|].
    apply lang_Cat; [exact H1|apply lang_Star_anychar].
Qed.

End PyFacts.

(** ** Properties of the risk engine *)

Module RiskFacts.
Import Py RiskEngine Spec Scenarios.

Lemma distinct_NoDup (l : list string) : distinct l = true -> NoDup l.
Proof.
  induction l as [|x l IH]; simpl; intros H.
  - constructor.
  - apply andb_prop in H as [Hx Hl].
    constructor; [|now apply IH].
    intros Hin.
    assert (E : existsb (String.eqb x) l = true).
    { apply existsb_exists. exists x. split; [assumption|apply String.eqb_refl]. }
    rewrite E in Hx. discriminate.
Qed.

Lemma SCAM_KEYWORDS_NoDup : NoDup SCAM_KEYWORDS.
Proof. apply distinct_NoDup. vm_compute. reflexivity. Qed.

Lemma SCAM_KEYWORDS_lower :
  forallb (fun kw => lower kw =? kw) SCAM_KEYWORDS = true.
Proof. vm_compute. reflexivity. Qed.

(** On a lower-case term, the substring test on the lowered description is
    the case-insensitive test on the description. *)
Lemma startswith_lower (term d : string) :
  lower term = term -> startswith (lower d) term = reads_at_start d term.
Proof.
  revert d. induction term as [|a term IH]; intros d Hl; simpl.
  - reflexivity.
  - simpl in Hl. injection Hl as Ha Ht.
    destruct d as [|b d]; simpl; [reflexivity|].
    unfold same_letter. rewrite Ha, (IH d Ht). reflexivity.
Qed.

Lemma contains_lower (term d : string) :
  lower term = term -> contains term (lower d) = occurs_ignoring_case term d.
Proof.
  intros Hl. induction d as [|b d IH].
  - simpl. change EmptyString with (lower EmptyString) at 1.
    rewrite (startswith_lower _ _ Hl). reflexivity.
  - simpl. rewrite <- IH.
    change (String (lower_char b) (lower d)) with (lower (String b d)).
    rewrite (startswith_lower _ _ Hl). reflexivity.
Qed.

Lemma found_keywords_filter (kws : list string) (dl : string) :
  found_keywords kws dl = filter (fun kw => contains kw dl) kws.
Proof.
  induction kws as [|kw kws IH]; simpl; [reflexivity|].
  rewrite IH. reflexivity.
Qed.

Lemma found_keywords_matched (d : string) :
  found_keywords SCAM_KEYWORDS (lower d) = matched_terms d.
Proof.
  rewrite found_keywords_filter. unfold matched_terms.
  apply filter_ext_in. intros kw Hin.
  apply contains_lower.
  pose proof SCAM_KEYWORDS_lower as H.
  rewrite forallb_forall in H. apply String.eqb_eq. now apply H.
Qed.

Lemma found_keywords_In (kws : list string) (dl kw : string) :
  In kw (found_keywords kws dl) <-> In kw kws /\ contains kw dl = true.
Proof.
  rewrite found_keywords_filter.
  apply (filter_In (fun k => contains k dl)).
Qed.

(** The accumulation of [calculate_risk_score], in closed form. *)
Lemma calculate_risk_score_closed_form
    (identifier_type identifier_value description : string)
    (report_count : Z) (ai_confidence : option float) :
  let kw := _keyword_score description in
  let idp := _identifier_pattern_score identifier_type identifier_value in
  let fr := _report_frequency_score report_count in
  let ai := _ai_confidence_score ai_confidence in
  let all := (snd kw ++ snd idp ++ snd fr ++ snd ai)%list in
  let total := Z.min (Z.max (fst kw + fst idp + fst fr + fst ai) 0) 100 in
  calculate_risk_score identifier_type identifier_value description
    report_count ai_confidence
  = mkRisk total (_determine_level total)
      match all with
      | [] => ["No significant risk factors detected"]
      | _ => all
      end.
Proof.
  unfold calculate_risk_score.
  destruct (_keyword_score description) as [s1 f1].
  destruct (_identifier_pattern_score identifier_type identifier_value) as [s2 f2].
  destruct (_report_frequency_score report_count) as [s3 f3].
  destruct (_ai_confidence_score ai_confidence) as [s4 f4].
  cbn [fst snd app Z.add].
  assert (A : (f1 ++ f2 ++ f3 ++ f4 = ((f1 ++ f2) ++ f3) ++ f4)%list)
    by (rewrite !app_assoc; reflexivity).
  rewrite A.
  destruct (((f1 ++ f2) ++ f3) ++ f4)%list; reflexivity.
Qed.

(** C1. For every identifier type and value, description, report count and
    optional AI confidence, the total that [calculate_risk_score] returns is
    the sum of the keyword, identifier, frequency and AI-confidence
    sub-scores clamped to [0, 100]; the level follows from the total by the
    thresholds 75 (CRITICAL), 50 (HIGH), 25 (MEDIUM), else LOW, exactly at
    24/25, 49/50 and 74/75; the factors are the sub-component factor lists
    concatenated in the order keyword, identifier, frequency, AI, replaced
    by the single factor "No significant risk factors detected" when that
    concatenation is empty. *)
Theorem calculate_risk_score_total_level_factors
    (identifier_type identifier_value description : string)
    (report_count : Z) (ai_confidence : option float) :
  let kw := _keyword_score description in
  let idp := _identifier_pattern_score identifier_type identifier_value in
  let fr := _report_frequency_score report_count in
  let ai := _ai_confidence_score ai_confidence in
  let all := (snd kw ++ snd idp ++ snd fr ++ snd ai)%list in
  let r := calculate_risk_score identifier_type identifier_value description
             report_count ai_confidence in
  score r = Z.min (Z.max (fst kw + fst idp + fst fr + fst ai) 0) 100
  /\ 0 <= score r <= 100
  /\ (75 <= score r -> level r = "CRITICAL")
  /\ (50 <= score r < 75 -> level r = "HIGH")
  /\ (25 <= score r < 50 -> level r = "MEDIUM")
  /\ (score r < 25 -> level r = "LOW")
  /\ map _determine_level [24; 25; 49; 50; 74; 75]
     = ["LOW"; "MEDIUM"; "MEDIUM"; "HIGH"; "HIGH"; "CRITICAL"]
  /\ (all <> [] -> factors r = all)
  /\ (all = [] -> factors r = ["No significant risk factors detected"]).
Proof.
  intros kw idp fr ai all r.
  assert (E : r = mkRisk (Z.min (Z.max (fst kw + fst idp + fst fr + fst ai) 0) 100)
                  (_determine_level
                     (Z.min (Z.max (fst kw + fst idp + fst fr + fst ai) 0) 100))
                  match all with
                  | [] => ["No significant risk factors detected"]
                  | _ => all
                  end)
  by exact (calculate_risk_score_closed_form identifier_type identifier_value
              description report_count ai_confidence).
clearbody r all kw idp fr ai. subst r. cbn [score level factors].
set (total := Z.min (Z.max (fst kw + fst idp + fst fr + fst ai) 0) 100).
assert (Hb : 0 <= total <= 100) by (subst total; lia).
clearbody total.
split; [reflexivity|].
split; [exact Hb|].
unfold _determine_level.
split; [intros H; destruct (Z.geb_spec total 75); [reflexivity|lia]|].
split; [intros H; destruct (Z.geb_spec total 75); [lia|];
        destruct (Z.geb_spec total 50); [reflexivity|lia]|].
split; [intros H; destruct (Z.geb_spec total 75); [lia|];
        destruct (Z.geb_spec total 50); [lia|];
        destruct (Z.geb_spec total 25); [reflexivity|lia]|].
split; [intros H; destruct (Z.geb_spec total 75); [lia|];
        destruct (Z.geb_spec total 50); [lia|];
        destruct (Z.geb_spec total 25); [lia|reflexivity]|].
split; [reflexivity|].
split.
- intros H. destruct all; [congruence|reflexivity].
- intros H. rewrite H. reflexivity.
Qed.

(** C2. For every description, the keyword sub-score is min(k * 5, 30),
    where k counts the distinct terms of the keyword list that occur in the
    description as a case-insensitive substring; with k = 0 the sub-score
    is 0 and there is no factor; with k > 0 there is exactly one factor,
    listing the first five matched terms at most, followed by "..." exactly
    when more than five terms matched. *)
Theorem keyword_score_spec (description : string) :
  let matched := matched_terms description in
  let k := len matched in
  NoDup SCAM_KEYWORDS /\ NoDup matched
  /\ fst (_keyword_score description) = Z.min (k * 5) 30
  /\ (k = 0 -> _keyword_score description = (0, []))
  /\ (k > 0 ->
      snd (_keyword_score description) =
        [ "Contains scam keywords: " ++ join ", " (firstn 5 matched)
            ++ (if (5 <? k)%Z then "..." else "") ]).
Proof.
  intros matched k.
  split; [exact SCAM_KEYWORDS_NoDup|].
  split; [apply NoDup_filter; exact SCAM_KEYWORDS_NoDup|].
  unfold _keyword_score. rewrite found_keywords_matched.
  fold matched. subst k. unfold len.
  destruct matched as [|t ts].
  - simpl. repeat split; lia.
  - cbn [fst snd]. rewrite Z.gtb_ltb. repeat split.
    simpl List.length. lia.
Qed.

(** C3. For every report count n >= 0 exactly one bucket applies: 0 gives
    sub-score 0 and no factor, 1 gives 5, 2 to 3 give 15, 4 to 10 give 20,
    more than 10 gives 25, each of the last four with one factor; the
    counts 0, 1, 2, 3, 4, 10, 11 give 0, 5, 15, 15, 20, 20, 25. *)
Theorem report_frequency_score_buckets (n : Z) :
  0 <= n ->
  ((n = 0 /\ _report_frequency_score n = (0, []))
   \/ (n = 1 /\ _report_frequency_score n = (5, ["Previously reported once"]))
   \/ (2 <= n <= 3 /\
       _report_frequency_score n =
         (15, ["Reported " ++ str_int n ++ " times before"]))
   \/ (4 <= n <= 10 /\
       _report_frequency_score n =
         (20, ["Frequently reported (" ++ str_int n ++ " times)"]))
   \/ (10 < n /\
       _report_frequency_score n =
         (25, ["Heavily reported (" ++ str_int n
                 ++ " times) — likely confirmed scam"])))
  /\ map (fun c => fst (_report_frequency_score c)) [0; 1; 2; 3; 4; 10; 11]
     = [0; 5; 15; 15; 20; 20; 25].
Proof.
  intros Hn. split; [|reflexivity].
  unfold _report_frequency_score.
  destruct (Z.eqb_spec n 0) as [E0|N0]; [left; now split|].
  destruct (Z.eqb_spec n 1) as [E1|N1]; [right; left; now split|].
  destruct (Z.leb_spec n 3) as [L3|G3]; [right; right; left; split; [lia|reflexivity]|].
  destruct (Z.leb_spec n 10) as [L10|G10].
  - right; right; right; left. split; [lia|reflexivity].
  - right; right; right; right. split; [lia|reflexivity].
Qed.

Lemma report_frequency_score_buckets_witness :
  0 <= 3 /\ _report_frequency_score 3 = (15, ["Reported 3 times before"]).
Proof.
  split; [lia|].
  destruct (report_frequency_score_buckets 3 ltac:(lia)) as [H _].
  destruct H as [[E _]|[[E _]|[[_ H]|[[E _]|[E _]]]]]; try lia.
  exact H.
Defined.

(** Binary64 comparison against a smaller positive constant: what is at
    least [hi] is at least [lo]. *)
Lemma SFleb_weaken (a b y : spec_float) :
  sf_pos_le a b = true -> SFleb b y = true -> SFleb a y = true.
Proof.
  destruct a as [| | |[|] m1 e1]; try discriminate.
  destruct b as [| | |[|] m2 e2]; try discriminate.
  unfold sf_pos_le, SFleb, SFcompare. intros Hab.
  destruct y as [s|s| |s m e]; try (intros; assumption).
  destruct s; [intros; assumption|].
  change (Pos.compare_cont Eq m2 m) with (m2 ?= m)%positive.
  change (Pos.compare_cont Eq m1 m) with (m1 ?= m)%positive.
  destruct (Z.compare_spec e2 e) as [E2|E2|E2];
    destruct (Z.compare_spec e1 e) as [E1|E1|E1];
    destruct (Pos.compare_spec m2 m) as [M2|M2|M2];
    destruct (Pos.compare_spec m1 m) as [M1|M1|M1];
    intros H; try reflexivity; try discriminate H; exfalso;
    apply orb_prop in Hab as [Hab|Hab];
    try (apply andb_prop in Hab as [Hab1 Hab2];
         apply Z.eqb_eq in Hab1; apply Pos.leb_le in Hab2);
    try apply Z.ltb_lt in Hab; lia.
Qed.

Lemma leb_weaken (lo hi c : float) :
  sf_pos_le (Prim2SF lo) (Prim2SF hi) = true ->
  (hi <=? c)%float = true -> (lo <=? c)%float = true.
Proof. rewrite !leb_spec. apply SFleb_weaken. Qed.

(** C4. Without a confidence the AI sub-score is 0 and there is no factor.
    With a confidence c, the sub-score is 20 when c >= 0.90, else 15 when
    c >= 0.70, else 10 when c >= 0.50, else 5 when c >= 0.30, else 0; every
    one of these cases emits exactly one factor that states the percentage,
    the last one included (sub-score 0 with a low-risk factor); the
    thresholds are exact at 0.30, 0.50, 0.70 and 0.90. *)
Theorem ai_confidence_score_thresholds (ai_confidence : option float) :
  match ai_confidence with
  | None => _ai_confidence_score ai_confidence = (0, [])
  | Some c =>
      let pct := format_pct0 c in
      let r := _ai_confidence_score ai_confidence in
      ((0.9 <=? c)%float = true ->
       r = (20, ["AI highly confident this is a scam (" ++ pct ++ ")"]))
      /\ ((0.9 <=? c)%float = false -> (0.7 <=? c)%float = true ->
          r = (15, ["AI moderately confident this is a scam (" ++ pct ++ ")"]))
      /\ ((0.7 <=? c)%float = false -> (0.5 <=? c)%float = true ->
          r = (10, ["AI suspects this may be a scam (" ++ pct ++ ")"]))
      /\ ((0.5 <=? c)%float = false -> (0.3 <=? c)%float = true ->
          r = (5, ["AI sees some suspicious signals (" ++ pct ++ ")"]))
      /\ ((0.3 <=? c)%float = false ->
          r = (0, ["AI considers this low risk (" ++ pct ++ ")"]))
      /\ List.length (snd r) = 1%nat
  end
  /\ map (fun c => fst (_ai_confidence_score (Some c)))
       [0.9; next_down 0.9; 0.7; next_down 0.7;
        0.5; next_down 0.5; 0.3; next_down 0.3; 1; 0]%float
     = [20; 15; 15; 10; 10; 5; 5; 0; 20; 0]
  /\ _ai_confidence_score (Some 0.29%float)
     = (0, ["AI considers this low risk (29%)"]).
Proof.
  split; [|split; vm_compute; reflexivity].
  destruct ai_confidence as [c|]; [|reflexivity].
  cbv zeta. unfold _ai_confidence_score, fge.
  assert (W97 := fun H => leb_weaken 0.7 0.9 c eq_refl H).
  assert (W75 := fun H => leb_weaken 0.5 0.7 c eq_refl H).
  assert (W53 := fun H => leb_weaken 0.3 0.5 c eq_refl H).
  destruct (0.9 <=? c)%float; destruct (0.7 <=? c)%float;
    destruct (0.5 <=? c)%float; destruct (0.3 <=? c)%float;
    try (specialize (W97 eq_refl); discriminate);
    try (specialize (W75 eq_refl); discriminate);
    try (specialize (W53 eq_refl); discriminate);
    repeat split; intros; try discriminate; reflexivity.
Qed.

(** The identifier checks on sample values. *)
Example identifier_pattern_samples :
  _identifier_pattern_score "phone" "1401234567"
  = (15, ["Phone number starts with known spam prefix: 140"])
  /\ _identifier_pattern_score "phone" "+1 202 5550100"
     = (10, ["International number (non-Indian)"])
  /\ _identifier_pattern_score "upi" "paytm.refund1234@okaxis"
     = (15, ["UPI ID matches suspicious pattern"])
  /\ _identifier_pattern_score "upi" "abcdefghij12@upi"
     = (5, ["UPI ID appears randomly generated"])
  /\ _identifier_pattern_score "website" "bit.ly/x.xyz"
     = (25, ["Uses suspicious domain extension: .xyz";
             "Uses URL shortener (often used for phishing)"])
  /\ _identifier_pattern_score "email" "SBI.helpdesk@gmail.com"
     = (20, ["Email impersonates official entity using free email service"])
  /\ _identifier_pattern_score "other" "140" = (0, []).
Proof. repeat split; vm_compute; reflexivity. Qed.

(** *** The keyword scenario *)

(** C6, as stated, fails: on the scenario description the keyword scorer
    does not match exactly the five keywords urgent, blocked, verify, kyc,
    upi, and the sub-score is not 25. *)
Lemma kyc_scenario_not_five_keywords :
  ~ ((forall kw, In kw (found_keywords SCAM_KEYWORDS (lower kyc_scenario))
                 <-> In kw ["urgent"; "blocked"; "verify"; "kyc"; "upi"])
     /\ fst (_keyword_score kyc_scenario) = 25).
Proof.
  intros [_ H]. vm_compute in H. discriminate H.
Qed.

(** C6, amended. On the scenario description the keyword scorer matches
    exactly the six keywords kyc, urgent, verify, blocked, upi and account
    (the description contains "account"), and the sub-score is
    min(6 * 5, 30) = 30; the factor lists the first five and ends with
    "...". *)
Theorem kyc_scenario_six_keywords :
  found_keywords SCAM_KEYWORDS (lower kyc_scenario)
  = ["kyc"; "urgent"; "verify"; "blocked"; "upi"; "account"]
  /\ _keyword_score kyc_scenario
     = (30, ["Contains scam keywords: kyc, urgent, verify, blocked, upi..."]).
Proof. split; vm_compute; reflexivity. Qed.

(** *** The phone scenario *)

(** C7. The code at the scenario input: the phone value "+91 140 1234567"
    gets no prefix bonus, because [_check_phone] removes the spaces of the
    prefix and not those of the value; the space-stripped value does start
    with the space-stripped prefix "+91 140", and the same number written
    without spaces gets the bonus. *)
Theorem phone_scenario_no_prefix_bonus :
  _identifier_pattern_score "phone" "+91 140 1234567" = (0, [])
  /\ find (fun prefix =>
             startswith (remove_char " " (lower (strip "+91 140 1234567")))
                        (remove_char " " (lower prefix)))
          SCAM_PHONE_PREFIXES = Some "+91 140"
  /\ _identifier_pattern_score "phone" "+911401234567"
     = (15, ["Phone number starts with known spam prefix: +91 140"]).
Proof. repeat split; vm_compute; reflexivity. Qed.

(** *** Overlapping keyword entries *)

Lemma contains_startswith (sub s : string) :
  startswith s sub = true -> contains sub s = true.
Proof. intros H. destruct s; simpl; rewrite H; reflexivity. Qed.

Lemma contains_String (sub : string) (c : ascii) (s : string) :
  contains sub s = true -> contains sub (String c s) = true.
Proof. intros H. simpl. rewrite H. apply orb_true_r. Qed.

Lemma contains_drop (sub : string) (n : nat) (s : string) :
  contains sub (drop n s) = true -> contains sub s = true.
Proof.
  revert s. induction n as [|n IH]; intros s H.
  - destruct s; exact H.
  - destruct s as [|c s]; [exact H|].
    apply contains_String, IH, H.
Qed.

Lemma startswith_app (s a b : string) :
  startswith s (a ++ b) = true -> startswith (drop (String.length a) s) b = true.
Proof.
  revert s. induction a as [|x a IH]; intros s H.
  - destruct s; exact H.
  - destruct s as [|y s]; simpl in H; [discriminate|].
    apply andb_prop in H as [_ H]. simpl. apply IH, H.
Qed.

(** A description that contains [a ++ b] contains [b]. *)
Lemma contains_app_r (a b s : string) :
  contains (a ++ b) s = true -> contains b s = true.
Proof.
  induction s as [|c s IH]; intros H.
  - simpl in H. rewrite orb_false_r in H.
    apply (contains_drop b (String.length a)), contains_startswith,
      startswith_app, H.
  - simpl in H. apply orb_prop in H as [H|H].
    + apply (contains_drop b (String.length a)), contains_startswith,
        startswith_app, H.
    + apply contains_String, IH, H.
Qed.

Lemma found_keywords_NoDup (dl : string) :
  NoDup (found_keywords SCAM_KEYWORDS dl).
Proof.
  rewrite found_keywords_filter. apply NoDup_filter, SCAM_KEYWORDS_NoDup.
Qed.

(** C10, as stated, fails at its example: the one-word description
    "aadhaar" does not match both the "aadhar" and the "aadhaar" entries,
    and does not score 10. *)
Lemma aadhaar_matches_one_entry :
  ~ (In "aadhar" (found_keywords SCAM_KEYWORDS (lower "aadhaar"))
     /\ In "aadhaar" (found_keywords SCAM_KEYWORDS (lower "aadhaar"))
     /\ fst (_keyword_score "aadhaar") = 10).
Proof.
  intros [_ [_ H]]. vm_compute in H. discriminate H.
Qed.

(** C10, amended. The keyword count is the number of matching entries of
    the keyword list, not of distinct words of the description, and one
    entry can be a substring of another: every description that contains
    "job offer" matches both the "job offer" and the "offer" entries, so
    that this phrase alone contributes 2 to the count and 10 points; on the
    description "job offer" both entries appear in the factor string. The
    word "aadhaar" matches the "aadhaar" entry only (5 points), "aadhar" not
    being a substring of it. *)
Theorem job_offer_counts_twice (description : string) :
  contains "job offer" (lower description) = true ->
  let found := found_keywords SCAM_KEYWORDS (lower description) in
  In "job offer" found /\ In "offer" found
  /\ 2 <= len found
  /\ 10 <= fst (_keyword_score description)
  /\ _keyword_score "job offer"
     = (10, ["Contains scam keywords: job offer, offer"])
  /\ _keyword_score "aadhaar" = (5, ["Contains scam keywords: aadhaar"])
  /\ contains "aadhar" "aadhaar" = false.
Proof.
  intros H found.
  assert (H1 : In "job offer" found).
  { apply found_keywords_In. split; [|exact H].
    vm_compute. tauto. }
  assert (H2 : In "offer" found).
  { apply found_keywords_In. split.
    - vm_compute. tauto.
    - apply (contains_app_r "job " "offer"), H. }
  assert (H3 : 2 <= len found).
  { unfold len.
    assert (L : (List.length ["job offer"; "offer"] <= List.length found)%nat).
    { apply NoDup_incl_length.
      - apply distinct_NoDup. reflexivity.
      - intros x [<-|[<-|[]]]; assumption. }
    simpl in L. lia. }
  split; [exact H1|]. split; [exact H2|]. split; [exact H3|].
  split; [|repeat split; vm_compute; reflexivity].
  unfold _keyword_score. fold found.
  destruct found as [|k ks] eqn:E; [destruct H1|].
  cbn [fst]. lia.
Qed.

Lemma job_offer_counts_twice_witness :
  contains "job offer" (lower "Got a JOB OFFER on WhatsApp") = true
  /\ 10 <= fst (_keyword_score "Got a JOB OFFER on WhatsApp").
Proof.
  split; [vm_compute; reflexivity|].
  apply (job_offer_counts_twice "Got a JOB OFFER on WhatsApp").
  vm_compute; reflexivity.
Defined.

End RiskFacts.

(** ** Properties of the AI collaborator *)

Module ServiceFacts.
Import Py Exc GeminiService Scenarios.

Lemma get_raises_Exception (v : json) (key : string) (default : json) (e : exn) :
  get v key default = Raise e -> is_Exception (exc_cls e) = true.
Proof.
  unfold get, raise. destruct v; try (intros [= <-]; reflexivity).
  destruct (find _ _); intros [= <-].
Qed.

Lemma get_not_object (v : json) (key : string) (default : json) :
  (forall items, v <> JObj items) ->
  exists e, get v key default = Raise e.
Proof.
  intros H. destruct v; try (eexists; reflexivity).
  exfalso. eapply H. reflexivity.
Qed.

Section Boundary.

Variable env : Env.

Lemma py_float_raises_Exception (v : json) (e : exn) :
  py_float env v = Raise e -> is_Exception (exc_cls e) = true.
Proof.
  unfold py_float, raise. destruct v; try (intros [= <-]; reflexivity).
  - destruct (float_of_int _); intros [= <-]; reflexivity.
  - destruct (float_of_str _ _); intros [= <-]; reflexivity.
Qed.

(** The library calls raise exceptions that derive from [Exception]. *)
Hypothesis generate_raises_Exception :
  forall prompt e,
    generate_content_text env prompt = Raise e -> is_Exception (exc_cls e) = true.
Hypothesis loads_raises_Exception :
  forall text e,
    json_loads env text = Raise e -> is_Exception (exc_cls e) = true.

Lemma parse_json_fields_raises_Exception (text : string) (e : exn) :
  parse_json_fields env text = Raise e -> is_Exception (exc_cls e) = true.
Proof.
  unfold parse_json_fields, bind.
  destruct (json_loads env text) as [result|e0] eqn:EL.
  2:{ intros [= <-]. eapply loads_raises_Exception, EL. }
  destruct (get result "is_scam" _) as [v1|e1] eqn:E1.
  2:{ intros [= <-]. eapply get_raises_Exception, E1. }
  destruct (get result "confidence" _) as [v2|e2] eqn:E2.
  2:{ intros [= <-]. eapply get_raises_Exception, E2. }
  destruct (py_float env v2) as [f|e3] eqn:E3.
  2:{ intros [= <-]. eapply py_float_raises_Exception, E3. }
  destruct (get result "scam_type" _) as [v4|e4] eqn:E4.
  2:{ intros [= <-]. eapply get_raises_Exception, E4. }
  destruct (get result "explanation" _) as [v5|e5] eqn:E5.
  2:{ intros [= <-]. eapply get_raises_Exception, E5. }
  destruct (get result "advice" _) as [v6|e6] eqn:E6.
  2:{ intros [= <-]. eapply get_raises_Exception, E6. }
  discriminate.
Qed.

(** [_parse_response] either returns, and then returns the fallback shape
    whenever its [try] body raised, or lets through an exception of that
    body that derives from [Exception]. *)
Lemma parse_response_cases (text : string) :
  let cleaned := strip_closing_fence (strip_opening_fence (strip text)) in
  match _parse_response env text with
  | Return r =>
      forall e, parse_json_fields env cleaned = Raise e -> is_fallback r
  | Raise e =>
      parse_json_fields env cleaned = Raise e /\ is_Exception (exc_cls e) = true
  end.
Proof.
  intros cleaned. unfold _parse_response, try_except. fold cleaned.
  destruct (parse_json_fields env cleaned) as [r|e] eqn:EP.
  - discriminate.
  - destruct (is_parse_error (exc_cls e)).
    + intros _ _. repeat split; try reflexivity; discriminate.
    + split; [reflexivity|].
      eapply parse_json_fields_raises_Exception, EP.
Qed.

(** C8. [analyze_scam_report] never raises past its boundary: whatever the
    description and the identifier, provided the failures of the service
    and of the JSON library are exceptions (instances of [Exception]), the
    call returns a result; and when the package is missing, the API key is
    missing, the service call raises, or the response cannot be parsed (the
    JSON reader raises, the text is not a JSON object, or any other step of
    the parse raises), that result is the fallback: [is_scam] false,
    [confidence] 0.0, an explanatory message and an [error] that is not
    [None]. *)
Theorem analyze_scam_report_never_raises
    (description : string) (identifier_type identifier_value : option string) :
  exists r,
    analyze_scam_report env description identifier_type identifier_value = Return r
    /\ let prompt := build_user_prompt description identifier_type identifier_value in
       let cleaned text := strip_closing_fence (strip_opening_fence (strip text)) in
       (GENAI_AVAILABLE env = false -> is_fallback r)
       /\ (GEMINI_API_KEY env = "" -> is_fallback r)
       /\ (forall e, generate_content_text env prompt = Raise e -> is_fallback r)
       /\ (forall text e,
             generate_content_text env prompt = Return text ->
             json_loads env (cleaned text) = Raise e -> is_fallback r)
       /\ (forall text v,
             generate_content_text env prompt = Return text ->
             json_loads env (cleaned text) = Return v ->
             (forall items, v <> JObj items) -> is_fallback r)
       /\ (forall text e,
             generate_content_text env prompt = Return text ->
             parse_json_fields env (cleaned text) = Raise e -> is_fallback r).
Proof.
  assert (FB : forall ex ad er, ad <> "" ->
            is_fallback (mkAI false 0 "unknown" ex ad (Some er))).
  { intros ex ad er H. repeat split; try reflexivity; [exact H|discriminate]. }
  unfold analyze_scam_report.
  destruct (GENAI_AVAILABLE env) eqn:EA; cbn [negb].
  2:{ eexists. split; [reflexivity|]. cbv zeta.
      repeat split; intros; try discriminate; try reflexivity. }
  unfold _configure_api.
  destruct (String.eqb_spec (GEMINI_API_KEY env) "") as [EK|NK]; cbn [negb].
  { eexists. split; [reflexivity|]. cbv zeta.
    repeat split; intros; try discriminate; try reflexivity. }
  cbv zeta.
  set (prompt := build_user_prompt description identifier_type identifier_value).
  unfold try_except, bind.
  destruct (generate_content_text env prompt) as [text|e] eqn:EG.
  2:{ rewrite (generate_raises_Exception _ _ EG).
      eexists. split; [reflexivity|].
      split; [discriminate|]. split; [intros; contradiction|].
      split; [intros e' [= <-]; apply FB; discriminate|].
      repeat split; intros; discriminate. }
  pose proof (parse_response_cases text) as PC. cbv zeta in PC.
  destruct (_parse_response env text) as [r|e] eqn:ER.
  - exists r. split; [reflexivity|].
    split; [discriminate|]. split; [intros; contradiction|].
    split; [discriminate|].
    split; [|split].
    + intros text' e' [= <-] EL.
      apply (PC e'). unfold parse_json_fields, bind. rewrite EL. reflexivity.
    + intros text' v [= <-] EL Hv.
      destruct (get_not_object v "is_scam" (JBool false) Hv) as [e' He'].
      apply (PC e'). unfold parse_json_fields, bind. rewrite EL, He'. reflexivity.
    + intros text' e' [= <-] EP. apply (PC e'), EP.
  - destruct PC as [EP He]. rewrite He.
    eexists. split; [reflexivity|].
    split; [discriminate|]. split; [intros; contradiction|].
    split; [discriminate|].
    repeat split; intros; try reflexivity; discriminate.
Qed.

End Boundary.

Lemma analyze_scam_report_never_raises_witness :
  exists r,
    analyze_scam_report offline_env kyc_scenario (Some "phone") (Some "1401234567")
    = Return r.
Proof.
  destruct (analyze_scam_report_never_raises offline_env) with
    (description := kyc_scenario) (identifier_type := Some "phone")
    (identifier_value := Some "1401234567") as [r [H _]].
  - intros prompt e [= <-]. reflexivity.
  - intros text e [= <-]. reflexivity.
  - exists r. exact H.
Defined.

End ServiceFacts.

(** ** Properties of the submission and lookup workflows *)

Module WorkflowFacts.
Import Py Exc Scenarios.
Import GeminiService Database Reports.

Lemma insert_desc_Permutation (r : Row) (l : list Row) :
  Permutation (insert_desc r l) (r :: l).
Proof.
  induction l as [|r' l IH]; simpl.
  - apply Permutation_refl.
  - destruct (String.ltb _ _).
    + eapply perm_trans; [apply perm_skip, IH|apply perm_swap].
    + apply Permutation_refl.
Qed.

(** The ordering of a query keeps its rows. *)
Lemma order_by_Permutation (l : list Row) :
  Permutation (order_by_reported_at_desc l) l.
Proof.
  induction l as [|r l IH]; simpl.
  - apply perm_nil.
  - eapply perm_trans; [apply insert_desc_Permutation|apply perm_skip, IH].
Qed.

Lemma where_identifier_value_app (v : string) (l1 l2 : list Row) :
  where_identifier_value v (l1 ++ l2)
  = (where_identifier_value v l1 ++ where_identifier_value v l2)%list.
Proof. apply filter_app. Qed.

(** What a successful [insert_report] does to the table. *)
Lemma insert_report_Return (db db' : DB)
    (ty value descr cat : string) (sc : Z) (lv fs ai who now : string) (rid : Z) :
  insert_report db ty value descr cat sc lv fs ai who now = Return (db', rid) ->
  rid = last_id db + 1
  /\ db' = mkDB (fraud_reports db
                  ++ [mkRow rid ty (lower (strip value)) descr cat sc lv fs ai who now])%list
                rid.
Proof.
  unfold insert_report, raise.
  destruct (negb (check_identifier_type ty)); [discriminate|].
  destruct (last_id db >=? MAX_ROWID)%Z; [discriminate|].
  intros [= <- <-]. split; reflexivity.
Qed.

Section Routes.

Variable env : Env.
Variable dumps_factors : list string -> string.
Variable dumps_ai : AIResult -> string.

(** The steps of a successful submission. *)
Lemma submit_report_Return (db db' : DB) (report : ReportCreate) (now : string)
    (resp : SubmitReportResponse) :
  submit_report env dumps_factors dumps_ai db report now = Return (db', resp) ->
  let count := get_report_count_for_identifier db (Reports.identifier_value report) in
  let ai := Reports.ai_analysis resp in
  let risk :=
    RiskEngine.calculate_risk_score (Reports.identifier_type report)
      (Reports.identifier_value report) (Reports.description report) count
      (derive_ai_confidence ai) in
  analyze_scam_report env (Reports.description report)
    (Some (Reports.identifier_type report))
    (Some (Reports.identifier_value report)) = Return ai
  /\ Reports.risk resp = risk
  /\ insert_report db (Reports.identifier_type report)
       (Reports.identifier_value report) (Reports.description report)
       (derive_category ai) (RiskEngine.score risk) (RiskEngine.level risk)
       (dumps_factors (RiskEngine.factors risk)) (dumps_ai ai)
       (Reports.reporter_name report) now
     = Return (db', report_id resp).
Proof.
  unfold submit_report, bind.
  destruct (analyze_scam_report env _ _ _) as [ai|e]; [|discriminate].
  destruct (insert_report db _ _ _ _ _ _ _ _ _ _) as [[db1 rid]|e] eqn:EI;
    [|discriminate].
  intros [= <- <-]. cbv zeta. cbn [Reports.ai_analysis Reports.risk report_id].
  repeat split. exact EI.
Qed.

(** C5. In the submission workflow the AI-confidence input of the scoring
    engine is the confidence of the AI result exactly when [is_scam] is
    true, and is absent whenever [is_scam] is false, whatever the
    confidence: the risk of a submitted report is the score computed with
    that input, and a result with [is_scam] false and confidence 0.95 gives
    an absent input. *)
Theorem submit_report_ai_confidence (db db' : DB) (report : ReportCreate)
    (now : string) (resp : SubmitReportResponse) :
  submit_report env dumps_factors dumps_ai db report now = Return (db', resp) ->
  let ai := Reports.ai_analysis resp in
  analyze_scam_report env (Reports.description report)
    (Some (Reports.identifier_type report))
    (Some (Reports.identifier_value report)) = Return ai
  /\ Reports.risk resp
     = RiskEngine.calculate_risk_score (Reports.identifier_type report)
         (Reports.identifier_value report) (Reports.description report)
         (get_report_count_for_identifier db (Reports.identifier_value report))
         (if is_scam ai then Some (confidence ai) else None)
  /\ (forall (r : AIResult) (c : float),
        derive_ai_confidence r = Some c <-> is_scam r = true /\ confidence r = c)
  /\ (forall r : AIResult, derive_ai_confidence r = None <-> is_scam r = false)
  /\ derive_ai_confidence (mkAI false 0.95 "unknown" "" "" None) = None.
Proof.
  intros H ai.
  destruct (submit_report_Return _ _ _ _ _ H) as [HA [HR _]].
  split; [exact HA|]. split; [exact HR|].
  unfold derive_ai_confidence.
  split; [|split; [|reflexivity]].
  - intros r c. destruct (is_scam r); split.
    + intros [= <-]. split; reflexivity.
    + intros [_ <-]. reflexivity.
    + discriminate.
    + intros [E _]. discriminate E.
  - intros r. destruct (is_scam r); split; try reflexivity; discriminate.
Qed.

(** C9. After a submission that persisted its report, the lookup of the
    same identifier, in any variant with the same trimmed lower-case form,
    returns a report count of at least 1 (the earlier count plus one) and a
    list of reports that contains the submitted one, stored under the
    normalized identifier. *)
Theorem submit_then_lookup (db db' : DB) (report : ReportCreate) (now : string)
    (resp : SubmitReportResponse) (identifier : string) :
  submit_report env dumps_factors dumps_ai db report now = Return (db', resp) ->
  lower (strip identifier) = lower (strip (Reports.identifier_value report)) ->
  let found := lookup_identifier db' identifier in
  report_count found >= 1
  /\ report_count found
     = get_report_count_for_identifier db (Reports.identifier_value report) + 1
  /\ report_count found = len (reports found)
  /\ lookup_risk found <> None
  /\ exists row,
       In row (reports found)
       /\ Database.id row = report_id resp
       /\ Database.identifier_type row = Reports.identifier_type report
       /\ Database.identifier_value row
          = lower (strip (Reports.identifier_value report))
       /\ Database.description row = Reports.description report
       /\ Database.risk_score row = RiskEngine.score (Reports.risk resp)
       /\ Database.reported_at row = now.
Proof.
  intros H Hid found.
  destruct (submit_report_Return _ _ _ _ _ H) as [_ [HR HI]]. cbv zeta in HR, HI.
  apply insert_report_Return in HI as [Hrid Hdb].
  set (norm := lower (strip (Reports.identifier_value report))) in *.
  set (row := mkRow (report_id resp) (Reports.identifier_type report) norm
                    (Reports.description report)
                    (derive_category (Reports.ai_analysis resp))
                    (RiskEngine.score (Reports.risk resp))
                    (RiskEngine.level (Reports.risk resp))
                    (dumps_factors (RiskEngine.factors (Reports.risk resp)))
                    (dumps_ai (Reports.ai_analysis resp))
                    (Reports.reporter_name report) now).
  assert (Hrows : fraud_reports db' = (fraud_reports db ++ [row])%list).
  { rewrite Hdb. cbn [fraud_reports]. subst row. rewrite <- HR. reflexivity. }
  assert (Hsel : where_identifier_value norm (fraud_reports db')
                 = (where_identifier_value norm (fraud_reports db) ++ [row])%list).
  { rewrite Hrows, where_identifier_value_app. f_equal.
    unfold where_identifier_value. simpl.
    subst row. cbn [Database.identifier_value]. rewrite String.eqb_refl.
    reflexivity. }
  assert (Hperm : Permutation (reports found)
                    (where_identifier_value norm (fraud_reports db) ++ [row])).
  { subst found. unfold lookup_identifier. cbn [reports].
    unfold get_reports_by_identifier. rewrite Hid. fold norm. rewrite <- Hsel.
    apply order_by_Permutation. }
  assert (Hcount : report_count found = len (reports found)) by reflexivity.
  assert (Hlen : len (reports found)
                 = get_report_count_for_identifier db
                     (Reports.identifier_value report) + 1).
  { unfold len. rewrite (Permutation_length Hperm), length_app.
    unfold get_report_count_for_identifier, len. fold norm. simpl. lia. }
  assert (Hpos : 0 <= get_report_count_for_identifier db
                        (Reports.identifier_value report))
    by (unfold get_report_count_for_identifier, len; lia).
  split; [lia|]. split; [lia|]. split; [exact Hcount|].
  split.
  - subst found. unfold lookup_identifier in *. cbn [lookup_risk reports] in *.
    destruct (get_reports_by_identifier db' identifier) as [|latest rest].
    + exfalso. unfold len in Hlen. simpl in Hlen. lia.
    + destruct (len (latest :: rest) >? 0)%Z eqn:E; [discriminate|].
      exfalso. unfold len in E. rewrite Z.gtb_ltb in E. apply Z.ltb_ge in E.
      simpl List.length in E. lia.
  - exists row. split.
    + apply (Permutation_in row (Permutation_sym Hperm)).
      apply in_or_app. right. left. reflexivity.
    + subst row. repeat split.
Qed.

End Routes.

Lemma submit_report_ai_confidence_witness :
  exists db' resp,
    submit_report not_scam_env dumps_list dumps_result Database.empty
      phone_report "2026-01-01T00:00:00" = Return (db', resp)
    /\ confidence (Reports.ai_analysis resp) = 0.95%float
    /\ RiskEngine.factors (Reports.risk resp)
       = ["Contains scam keywords: kyc, urgent, verify, blocked, upi..."].
Proof.
  eexists. eexists.
  assert (E : submit_report not_scam_env dumps_list dumps_result Database.empty
                phone_report "2026-01-01T00:00:00" = Return (_, _))
    by (vm_compute; reflexivity).
  split; [exact E|].
  destruct (submit_report_ai_confidence not_scam_env dumps_list dumps_result
              _ _ _ _ _ E) as [_ [HR _]].
  split; [reflexivity|].
  rewrite HR. vm_compute. reflexivity.
Defined.

Lemma submit_then_lookup_witness :
  exists db' resp,
    submit_report offline_env dumps_list dumps_result Database.empty
      phone_report "2026-01-01T00:00:00" = Return (db', resp)
    /\ lower (strip "  +91 140 1234567 ") = lower (strip "+91 140 1234567")
    /\ report_count (lookup_identifier db' "  +91 140 1234567 ") >= 1.
Proof.
  eexists. eexists.
  assert (E : submit_report offline_env dumps_list dumps_result Database.empty
                phone_report "2026-01-01T00:00:00" = Return (_, _))
    by (vm_compute; reflexivity).
  split; [exact E|].
  split; [reflexivity|].
  apply (submit_then_lookup offline_env dumps_list dumps_result _ _ _ _ _
           "  +91 140 1234567 " E).
  reflexivity.
Defined.

End WorkflowFacts.

(** ** Normalization of identifiers: [value.strip().lower()] *)

Module NormalizeFacts.
Import Py Shapes.

Lemma lower_char_idem (c : ascii) : lower_char (lower_char c) = lower_char c.
Proof. destruct c as [[] [] [] [] [] [] [] []]; reflexivity. Qed.

Lemma isspace_lower_char (c : ascii) : isspace (lower_char c) = isspace c.
Proof. destruct c as [[] [] [] [] [] [] [] []]; reflexivity. Qed.

Lemma lower_idem (s : string) : lower (lower s) = lower s.
Proof.
  induction s as [|c s IH]; simpl; [reflexivity|].
  now rewrite lower_char_idem, IH.
Qed.

Lemma lower_app (a b : string) : lower (a ++ b) = lower a ++ lower b.
Proof. induction a as [|c a IH]; simpl; [reflexivity|now rewrite IH]. Qed.

Lemma lstrip_lower (s : string) : lstrip (lower s) = lower (lstrip s).
Proof.
  induction s as [|c s IH]; simpl; [reflexivity|].
  rewrite isspace_lower_char. destruct (isspace c); [exact IH|reflexivity].
Qed.

Lemma rstrip_lower (s : string) : rstrip (lower s) = lower (rstrip s).
Proof.
  induction s as [|c s IH]; simpl; [reflexivity|].
  rewrite IH, isspace_lower_char.
  destruct (rstrip s); simpl; [destruct (isspace c)|]; reflexivity.
Qed.

Lemma strip_lower (s : string) : strip (lower s) = lower (strip s).
Proof. unfold strip. now rewrite lstrip_lower, rstrip_lower. Qed.

Lemma lstrip_starts_clean (s : string) : starts_clean (lstrip s) = true.
Proof.
  induction s as [|c s IH]; simpl; [reflexivity|].
  destruct (isspace c) eqn:E; [exact IH|]. simpl. now rewrite E.
Qed.

Lemma lstrip_clean (s : string) : starts_clean s = true -> lstrip s = s.
Proof.
  destruct s as [|c s]; simpl; [reflexivity|].
  destruct (isspace c); [discriminate|reflexivity].
Qed.

Lemma rstrip_starts_clean (s : string) :
  starts_clean s = true -> starts_clean (rstrip s) = true.
Proof.
  destruct s as [|c s]; simpl; [reflexivity|]. intros H.
  destruct (rstrip s); simpl; [|exact H].
  destruct (isspace c) eqn:E; [reflexivity|]. simpl. now rewrite E.
Qed.

Lemma rstrip_idem (s : string) : rstrip (rstrip s) = rstrip s.
Proof.
  induction s as [|c s IH]; simpl; [reflexivity|].
  destruct (rstrip s) as [|d r] eqn:E.
  - destruct (isspace c) eqn:Ec; simpl; [reflexivity|now rewrite Ec].
  - cbn [rstrip] in *. rewrite IH. reflexivity.
Qed.

Lemma strip_idem (s : string) : strip (strip s) = strip s.
Proof.
  unfold strip.
  rewrite (lstrip_clean (rstrip (lstrip s))).
  - apply rstrip_idem.
  - apply rstrip_starts_clean, lstrip_starts_clean.
Qed.

(** The stored form of an identifier is a fixed point of the normalization. *)
Lemma normalize_idem (v : string) :
  lower (strip (lower (strip v))) = lower (strip v).
Proof. now rewrite strip_lower, strip_idem, lower_idem. Qed.

End NormalizeFacts.

(** ** The identifier sub-score *)

Module IdentifierFacts.
Import Py Regex RiskEngine PyFacts NormalizeFacts.

Lemma contains_app_l (a b s : string) :
  contains (a ++ b) s = true -> contains a s = true.
Proof.
  rewrite !contains_iff. intros [before [after ->]].
  exists before, (b ++ after).
  f_equal. clear. induction a as [|c a IH]; simpl; [reflexivity|now rewrite IH].
Qed.

Lemma contains_prepend (sub p s : string) :
  contains sub s = true -> contains sub (p ++ s) = true.
Proof.
  rewrite !contains_iff. intros [before [after ->]].
  exists (p ++ before), after.
  clear. induction p as [|c p IH]; simpl; [reflexivity|now rewrite IH].
Qed.

(** The two bonuses of a phone number exclude each other. *)
Lemma check_phone_cases (value : string) :
  _check_phone value =
    if startswith value "+91140" then
      ([15], ["Phone number starts with known spam prefix: +91 140"])
    else if startswith value "140" then
      ([15], ["Phone number starts with known spam prefix: 140"])
    else if startswith value "+" && negb (startswith value "+91") then
      ([10], ["International number (non-Indian)"])
    else ([], []).
Proof.
  unfold _check_phone, SCAM_PHONE_PREFIXES. cbn [find].
  change (remove_char " " (lower "+91 140")) with "+91140".
  change (remove_char " " (lower "140")) with "140".
  destruct (startswith value "+91140") eqn:E1.
  { apply startswith_iff in E1 as [rest ->]. reflexivity. }
  destruct (startswith value "140") eqn:E2.
  { apply startswith_iff in E2 as [rest ->]. reflexivity. }
  destruct (startswith value "+" && negb (startswith value "+91")); reflexivity.
Qed.

(** A phone number scores 15 exactly when its normalized value starts with
    "+91140" or with "140", 10 exactly when it starts with "+" but not with
    "+91", and 0 otherwise; the spam-prefix bonus and the international
    bonus never add up. *)
Theorem phone_score_cases (identifier_value : string) :
  let value := lower (strip identifier_value) in
  _identifier_pattern_score "phone" identifier_value =
    (if startswith value "+91140" then
       (15, ["Phone number starts with known spam prefix: +91 140"])
     else if startswith value "140" then
       (15, ["Phone number starts with known spam prefix: 140"])
     else if startswith value "+" && negb (startswith value "+91") then
       (10, ["International number (non-Indian)"])
     else (0, []))
  /\ fst (_identifier_pattern_score "phone" identifier_value) <> 25.
Proof.
  intros value.
  assert (E : _identifier_pattern_score "phone" identifier_value =
              (let '(scores, factors) := _check_phone value in
               (Z.min (sum scores) 25, factors))) by reflexivity.
  rewrite E, check_phone_cases.
  destruct (startswith value "+91140"); [split; [reflexivity|discriminate]|].
  destruct (startswith value "140"); [split; [reflexivity|discriminate]|].
  destruct (startswith value "+" && negb (startswith value "+91"));
    split; try reflexivity; discriminate.
Qed.

(** Whatever the identifier type and value, the identifier sub-score lies
    in 0..25, comes with at most two factors, and is 0 exactly when there is
    no factor; it is 0, 10 or 15 for a phone, 0, 5, 15 or 20 for a UPI id,
    0, 10, 15 or 25 for a website, 0 or 20 for an email, and 0 without
    factor for every other type. *)
Theorem identifier_pattern_score_values (identifier_type identifier_value : string) :
  let r := _identifier_pattern_score identifier_type identifier_value in
  0 <= fst r <= 25
  /\ (List.length (snd r) <= 2)%nat
  /\ (fst r = 0 <-> snd r = [])
  /\ (identifier_type = "phone" -> In (fst r) [0; 10; 15])
  /\ (identifier_type = "upi" -> In (fst r) [0; 5; 15; 20])
  /\ (identifier_type = "website" -> In (fst r) [0; 10; 15; 25])
  /\ (identifier_type = "email" -> In (fst r) [0; 20])
  /\ (~ In identifier_type ["phone"; "upi"; "website"; "email"] -> r = (0, [])).
Proof.
  intros r. subst r. unfold _identifier_pattern_score.
  set (value := lower (strip identifier_value)).
  destruct (String.eqb_spec identifier_type "phone") as [->|N1].
  { rewrite check_phone_cases.
    destruct (startswith value "+91140");
      [|destruct (startswith value "140");
        [|destruct (startswith value "+" && negb (startswith value "+91"))]];
      cbn; repeat split; intros; try discriminate; try lia; try tauto. }
  destruct (String.eqb_spec identifier_type "upi") as [->|N2].
  { unfold _check_upi.
    destruct (find _ SUSPICIOUS_UPI_PATTERNS); destruct (re_match random_handle value);
      cbn; repeat split; intros; try discriminate; try lia; try tauto. }
  destruct (String.eqb_spec identifier_type "website") as [->|N3].
  { unfold _check_website.
    destruct (find _ [".xyz"; ".top"; ".buzz"; ".club"; ".icu"; ".tk"; ".ml"; ".ga"]);
      destruct (find _ ["bit.ly"; "tinyurl"; "t.co"; "goo.gl"; "is.gd"; "rebrand.ly"]);
      cbn; repeat split; intros; try discriminate; try lia; try tauto. }
  destruct (String.eqb_spec identifier_type "email") as [->|N4].
  { unfold _check_email.
    destruct (re_search official_name value && re_search free_mail value);
      cbn; repeat split; intros; try discriminate; try lia; try tauto. }
  cbn. repeat split; intros; try lia; try tauto; try congruence.
Qed.

(** Every website whose normalized value contains "t.co" gets the
    URL-shortener bonus: at least 10 points and the shortener factor. *)
Theorem website_containing_t_co (identifier_value : string) :
  contains "t.co" (lower (strip identifier_value)) = true ->
  10 <= fst (_identifier_pattern_score "website" identifier_value)
  /\ In "Uses URL shortener (often used for phishing)"
        (snd (_identifier_pattern_score "website" identifier_value)).
Proof.
  intros H.
  assert (E : _identifier_pattern_score "website" identifier_value =
              (let '(scores, factors) :=
                 _check_website (lower (strip identifier_value)) in
               (Z.min (sum scores) 25, factors))) by reflexivity.
  rewrite E. clear E. unfold _check_website.
  set (value0 := lower (strip identifier_value)) in *.
  set (value := if negb (startswith value0 "http") then "http://" ++ value0
                else value0).
  assert (Hv : contains "t.co" value = true).
  { subst value. destruct (negb (startswith value0 "http")); [|exact H].
    apply contains_prepend, H. }
  destruct (find (fun shortener => contains shortener value)
                 ["bit.ly"; "tinyurl"; "t.co"; "goo.gl"; "is.gd"; "rebrand.ly"])
    as [x|] eqn:F.
  - destruct (find (fun tld => contains tld value)
                [".xyz"; ".top"; ".buzz"; ".club"; ".icu"; ".tk"; ".ml"; ".ga"]);
      cbn; (split; [lia|tauto]).
  - exfalso.
    pose proof (find_none _ _ F "t.co") as C. cbv beta in C.
    rewrite Hv in C. discriminate C. simpl. tauto.
Qed.

Lemma website_containing_t_co_witness :
  contains "t.co" (lower (strip "Microsoft.com")) = true
  /\ 10 <= fst (_identifier_pattern_score "website" "Microsoft.com").
Proof.
  split; [reflexivity|].
  apply (website_containing_t_co "Microsoft.com"). reflexivity.
Defined.

(** Scoring the stored (trimmed, lower-cased) form of an identifier gives
    the sub-score of the raw value, and the keyword sub-score of a
    description is that of its lower-cased text. *)
Theorem scoring_ignores_case_and_padding
    (identifier_type identifier_value description : string) :
  _identifier_pattern_score identifier_type (lower (strip identifier_value))
  = _identifier_pattern_score identifier_type identifier_value
  /\ _keyword_score (lower description) = _keyword_score description.
Proof.
  split.
  - unfold _identifier_pattern_score. rewrite normalize_idem. reflexivity.
  - unfold _keyword_score. rewrite lower_idem. reflexivity.
Qed.

End IdentifierFacts.

(** ** What the patterns of the UPI and email checks accept *)

Module PatternFacts.
Import Py Regex RiskEngine Shapes PyFacts.

Lemma app_assoc_s (a b c : string) : (a ++ b) ++ c = a ++ b ++ c.
Proof. induction a as [|x a IH]; simpl; [reflexivity|now rewrite IH]. Qed.

Lemma app_nil_s (a : string) : a ++ "" = a.
Proof. induction a as [|x a IH]; simpl; [reflexivity|now rewrite IH]. Qed.

Lemma length_app_s (a b : string) :
  String.length (a ++ b) = (String.length a + String.length b)%nat.
Proof. induction a as [|x a IH]; simpl; [reflexivity|now rewrite IH]. Qed.

Lemma all_chars_app (p : ascii -> bool) (a b : string) :
  all_chars p (a ++ b) = all_chars p a && all_chars p b.
Proof.
  induction a as [|x a IH]; simpl; [reflexivity|].
  now rewrite IH, andb_assoc.
Qed.

Lemma lang_lit (w s : string) : lang (lit w) s <-> s = w.
Proof.
  revert s. induction w as [|c w IH]; intros s; simpl.
  - split; [intros H; inversion H; reflexivity|intros ->; constructor].
  - split.
    + intros H. apply lang_Cat_inv in H as [s1 [s2 [-> [H1 H2]]]].
      inversion H1 as [|p c' E| | | | |]; subst.
      apply Ascii.eqb_eq in E. subst. apply IH in H2. now subst.
    + intros ->. apply (lang_Cat _ _ (String c "") w).
      * constructor. apply Ascii.eqb_refl.
      * now apply IH.
Qed.

(** A star of a character class: the strings over that class. *)
Lemma lang_Star_Chr (p : ascii -> bool) (s : string) :
  lang (Star (Chr p)) s <-> all_chars p s = true.
Proof.
  split.
  - intros H. remember (Star (Chr p)) as r eqn:Er.
    induction H as [| | | | | |r' s1 s2 H1 _ _ IH2]; try discriminate.
    + reflexivity.
    + injection Er as ->. inversion H1; subst. simpl.
      rewrite IH2 by reflexivity. now rewrite H0.
  - induction s as [|c s IH]; simpl; intros H; [constructor|].
    apply andb_prop in H as [Hc Hs].
    apply (lang_Star_app _ (String c "") s); [now constructor|now apply IH].
Qed.

(** [c{n,}] for a character class: at least [n] characters of the class. *)
Lemma lang_at_least_Chr (n : nat) (p : ascii -> bool) (s : string) :
  lang (at_least n (Chr p)) s <->
  (n <= String.length s)%nat /\ all_chars p s = true.
Proof.
  revert s. induction n as [|n IH]; intros s; simpl.
  - rewrite lang_Star_Chr. split; [intros H; split; [lia|exact H]|tauto].
  - split.
    + intros H. apply lang_Cat_inv in H as [s1 [s2 [-> [H1 H2]]]].
      inversion H1; subst. apply IH in H2 as [L A]. simpl.
      split; [lia|]. now rewrite H0, A.
    + intros [L A]. destruct s as [|c s]; [simpl in L; lia|].
      simpl in L, A. apply andb_prop in A as [Hc Hs].
      apply (lang_Cat _ _ (String c "") s); [now constructor|].
      apply IH. split; [lia|exact Hs].
Qed.

Lemma lang_alts_lit (ws : list string) (s : string) :
  lang (alts (map lit ws)) s <-> In s ws.
Proof.
  induction ws as [|w ws IH]; simpl.
  - split; [intros H; inversion H|tauto].
  - destruct ws as [|w' ws'].
    + simpl. rewrite lang_lit. split; [intros ->; now left|intros [->|[]]; reflexivity].
    + change (map lit (w' :: ws')) with (lit w' :: map lit ws') in *.
      cbn [alts] in *. split.
      * intros H. apply lang_Alt_inv in H as [H|H].
        -- apply lang_lit in H. now left.
        -- right. now apply IH.
      * intros [->|H].
        -- apply lang_Alt_l, lang_lit. reflexivity.
        -- apply lang_Alt_r, IH, H.
Qed.

(** [re.search] of an alternative of words: one of the words occurs. *)
Lemma re_search_words (pre : string) (ws : list string) (v : string) :
  re_search (Cat (lit pre) (alts (map lit ws))) v = true <->
  exists w, In w ws /\ contains (pre ++ w) v = true.
Proof.
  rewrite re_search_iff. split.
  - intros [s0 [s1 [s2 [-> H]]]].
    apply lang_Cat_inv in H as [a [b [-> [Ha Hb]]]].
    apply lang_lit in Ha as ->. apply lang_alts_lit in Hb.
    exists b. split; [exact Hb|]. apply contains_iff. exists s0, s2. reflexivity.
  - intros [w [Hw H]]. apply contains_iff in H as [before [after ->]].
    exists before, (pre ++ w), after. split; [reflexivity|].
    apply lang_Cat; [now apply lang_lit|now apply lang_alts_lit].
Qed.

Lemma re_search_plain_words (ws : list string) (v : string) :
  re_search (alts (map lit ws)) v = true <->
  exists w, In w ws /\ contains w v = true.
Proof.
  rewrite re_search_iff. split.
  - intros [s0 [s1 [s2 [-> H]]]]. apply lang_alts_lit in H.
    exists s1. split; [exact H|]. apply contains_iff. exists s0, s2. reflexivity.
  - intros [w [Hw H]]. apply contains_iff in H as [before [after ->]].
    exists before, w, after. split; [reflexivity|now apply lang_alts_lit].
Qed.

(** [re.match] of [.*word.*@.*]: on the first line, the word and later an
    at sign. *)
Lemma re_match_lure (word v : string) :
  re_match (lure word) v = true <->
  exists a b c,
    v = a ++ word ++ b ++ "@" ++ c /\ one_line a = true /\ one_line b = true.
Proof.
  rewrite re_match_iff. unfold lure. split.
  - intros [s1 [s2 [-> H]]].
    apply lang_Cat_inv in H as [a [t1 [-> [Ha H]]]].
    apply lang_Cat_inv in H as [w [t2 [-> [Hw H]]]].
    apply lang_Cat_inv in H as [b [t3 [-> [Hb H]]]].
    apply lang_Cat_inv in H as [at_ [c [-> [Hat Hc]]]].
    apply lang_lit in Hw as ->. apply lang_lit in Hat as ->.
    apply lang_Star_Chr in Ha. apply lang_Star_Chr in Hb.
    exists a, b, (c ++ s2). split; [|split; assumption].
    now rewrite !app_assoc_s.
  - intros [a [b [c [-> [Ha Hb]]]]].
    exists (a ++ word ++ b ++ "@"), c. split.
    + now rewrite !app_assoc_s.
    + apply lang_Cat; [now apply lang_Star_Chr|].
      apply lang_Cat; [now apply lang_lit|].
      apply lang_Cat; [now apply lang_Star_Chr|].
      apply (lang_Cat (lit "@") (Star dot) "@" "");
        [now apply lang_lit|constructor].
Qed.

(** [re.match] of [^[a-z0-9]{10,}@]: ten or more lower-case letters or
    digits, then an at sign. *)
Lemma re_match_random_handle (v : string) :
  re_match random_handle v = true <->
  exists handle rest,
    v = handle ++ "@" ++ rest
    /\ (10 <= String.length handle)%nat /\ all_chars lower_alnum handle = true.
Proof.
  rewrite re_match_iff. unfold random_handle. split.
  - intros [s1 [s2 [-> H]]].
    apply lang_Cat_inv in H as [h [at_ [-> [Hh Hat]]]].
    apply lang_lit in Hat as ->.
    apply (lang_at_least_Chr 10 lower_alnum) in Hh as [L A].
    exists h, s2. split; [now rewrite !app_assoc_s|split; assumption].
  - intros [h [rest [-> [L A]]]].
    exists (h ++ "@"), rest. split; [now rewrite !app_assoc_s|].
    apply lang_Cat; [|now apply lang_lit].
    apply (lang_at_least_Chr 10 lower_alnum). split; assumption.
Qed.

(** A UPI id gets the suspicious-pattern factor exactly when its normalized
    value holds, before any line feed, one of the eight lure words followed
    somewhere by an at sign. *)
Theorem upi_suspicious_pattern_meaning (identifier_value : string) :
  let value := lower (strip identifier_value) in
  In "UPI ID matches suspicious pattern"
     (snd (_identifier_pattern_score "upi" identifier_value))
  <-> exists word a b c,
        In word upi_lure_words
        /\ value = a ++ word ++ b ++ "@" ++ c
        /\ one_line a = true /\ one_line b = true.
Proof.
  intros value.
  assert (E : _identifier_pattern_score "upi" identifier_value =
              (let '(scores, factors) := _check_upi value in
               (Z.min (sum scores) 25, factors))) by reflexivity.
  rewrite E. clear E. unfold _check_upi.
  change SUSPICIOUS_UPI_PATTERNS with (map lure upi_lure_words).
  destruct (find (fun pattern => re_match pattern value) (map lure upi_lure_words))
    as [pattern|] eqn:F.
  - apply find_some in F as [Hin Hm].
    apply in_map_iff in Hin as [word [<- Hw]].
    apply re_match_lure in Hm as [a [b [c [Hv [Ha Hb]]]]].
    split.
    + intros _. exists word, a, b, c. repeat split; assumption.
    + intros _. destruct (re_match random_handle value); cbn; tauto.
  - split.
    + intros H. exfalso.
      destruct (re_match random_handle value); cbn in H;
        [destruct H as [H|[]]|destruct H]; discriminate H.
    + intros [word [a [b [c [Hw [Hv [Ha Hb]]]]]]]. exfalso.
      pose proof (find_none _ _ F (lure word) (in_map lure _ _ Hw)) as C.
      cbv beta in C.
      assert (M : re_match (lure word) value = true)
        by (apply re_match_lure; exists a, b, c; repeat split; assumption).
      rewrite M in C. discriminate C.
Qed.

(** A UPI id gets the randomly-generated factor exactly when its normalized
    value starts with ten or more lower-case letters or digits followed by
    an at sign. *)
Theorem upi_random_handle_meaning (identifier_value : string) :
  let value := lower (strip identifier_value) in
  In "UPI ID appears randomly generated"
     (snd (_identifier_pattern_score "upi" identifier_value))
  <-> exists handle rest,
        value = handle ++ "@" ++ rest
        /\ (10 <= String.length handle)%nat
        /\ all_chars lower_alnum handle = true.
Proof.
  intros value.
  assert (E : _identifier_pattern_score "upi" identifier_value =
              (let '(scores, factors) := _check_upi value in
               (Z.min (sum scores) 25, factors))) by reflexivity.
  rewrite E. clear E. unfold _check_upi.
  rewrite <- re_match_random_handle.
  destruct (re_match random_handle value);
    destruct (find _ SUSPICIOUS_UPI_PATTERNS); cbn; split;
    try (intros _; reflexivity); try (intros _; tauto); try discriminate;
    intros H; exfalso;
    repeat (destruct H as [H|H]; [discriminate H|]); exact H.
Qed.

(** An email scores 20, with the impersonation factor, exactly when its
    normalized value contains one of the official words (bank, sbi, hdfc,
    icici, rbi, govt, gov) and also an at sign directly followed by gmail,
    yahoo, hotmail or outlook; every other email scores 0 without factor. *)
Theorem email_impersonation_meaning (identifier_value : string) :
  let value := lower (strip identifier_value) in
  let impersonates :=
    (exists w, In w official_words /\ contains w value = true)
    /\ (exists h, In h free_mail_hosts /\ contains ("@" ++ h) value = true) in
  (impersonates <->
   _identifier_pattern_score "email" identifier_value
   = (20, ["Email impersonates official entity using free email service"]))
  /\ (~ impersonates <->
      _identifier_pattern_score "email" identifier_value = (0, [])).
Proof.
  intros value impersonates.
  assert (E : _identifier_pattern_score "email" identifier_value =
              (let '(scores, factors) := _check_email value in
               (Z.min (sum scores) 25, factors))) by reflexivity.
  rewrite E. clear E. unfold _check_email.
  assert (R : re_search official_name value && re_search free_mail value = true
              <-> impersonates).
  { subst impersonates. rewrite andb_true_iff.
    change official_name with (alts (map lit official_words)).
    change free_mail with (Cat (lit "@") (alts (map lit free_mail_hosts))).
    rewrite re_search_plain_words, re_search_words. reflexivity. }
  destruct (re_search official_name value && re_search free_mail value); cbn.
  - assert (I : impersonates) by (apply R; reflexivity).
    split; split; try tauto; try discriminate.
  - assert (I : ~ impersonates) by (intros I; apply R in I; discriminate I).
    split; split; try tauto; try discriminate.
Qed.

End PatternFacts.

(** ** The aggregated score *)

Module ScoreFacts.
Import Py Regex RiskEngine Shapes PyFacts NormalizeFacts.

Lemma keyword_score_fst (description : string) :
  fst (_keyword_score description)
  = Z.min (len (found_keywords SCAM_KEYWORDS (lower description)) * 5) 30.
Proof.
  unfold _keyword_score.
  destruct (found_keywords SCAM_KEYWORDS (lower description)); reflexivity.
Qed.

(** Each component: its range, a zero score when it gives no factor, and
    factors that differ from the placeholder. *)
Lemma keyword_component (description : string) :
  let r := _keyword_score description in
  0 <= fst r <= 30 /\ (snd r = [] -> fst r = 0)
  /\ Forall (fun f => f <> NO_FACTORS) (snd r).
Proof.
  cbv zeta. split; [rewrite keyword_score_fst; unfold len; lia|].
  unfold _keyword_score.
  destruct (found_keywords SCAM_KEYWORDS (lower description)); cbn [fst snd].
  - split; [reflexivity|constructor].
  - split; [discriminate|]. constructor; [|constructor].
    intros H. discriminate H.
Qed.

Lemma identifier_component (identifier_type identifier_value : string) :
  let r := _identifier_pattern_score identifier_type identifier_value in
  0 <= fst r <= 25 /\ (snd r = [] -> fst r = 0)
  /\ Forall (fun f => f <> NO_FACTORS) (snd r).
Proof.
  cbv zeta. unfold _identifier_pattern_score.
  set (value := lower (strip identifier_value)).
  destruct (identifier_type =? "phone").
  { unfold _check_phone.
    destruct (find _ SCAM_PHONE_PREFIXES);
      destruct (startswith value "+" && negb (startswith value "+91"));
      cbn; repeat split; try lia; try discriminate;
      repeat constructor; intros H; discriminate H. }
  destruct (identifier_type =? "upi").
  { unfold _check_upi.
    destruct (find _ SUSPICIOUS_UPI_PATTERNS); destruct (re_match random_handle value);
      cbn; repeat split; try lia; try discriminate;
      repeat constructor; intros H; discriminate H. }
  destruct (identifier_type =? "website").
  { unfold _check_website.
    destruct (find _ [".xyz"; ".top"; ".buzz"; ".club"; ".icu"; ".tk"; ".ml"; ".ga"]);
      destruct (find _ ["bit.ly"; "tinyurl"; "t.co"; "goo.gl"; "is.gd"; "rebrand.ly"]);
      cbn; repeat split; try lia; try discriminate;
      repeat constructor; intros H; discriminate H. }
  destruct (identifier_type =? "email").
  { unfold _check_email.
    destruct (re_search official_name value && re_search free_mail value);
      cbn; repeat split; try lia; try discriminate;
      repeat constructor; intros H; discriminate H. }
  cbn. repeat split; try lia. constructor.
Qed.

Lemma frequency_component (report_count : Z) :
  let r := _report_frequency_score report_count in
  0 <= fst r <= 25 /\ (snd r = [] -> fst r = 0)
  /\ Forall (fun f => f <> NO_FACTORS) (snd r).
Proof.
  cbv zeta. unfold _report_frequency_score.
  destruct (report_count =? 0)%Z; [|destruct (report_count =? 1)%Z;
    [|destruct (report_count <=? 3)%Z; [|destruct (report_count <=? 10)%Z]]];
    cbn [fst snd]; repeat split; try lia; try discriminate;
    repeat constructor; intros H; discriminate H.
Qed.

Lemma ai_component (ai_confidence : option float) :
  let r := _ai_confidence_score ai_confidence in
  0 <= fst r <= 20 /\ (snd r = [] -> fst r = 0)
  /\ Forall (fun f => f <> NO_FACTORS) (snd r).
Proof.
  cbv zeta. unfold _ai_confidence_score.
  destruct ai_confidence as [c|]; [|cbn; repeat split; try lia; constructor].
  destruct (fge c 0.9); [|destruct (fge c 0.7); [|destruct (fge c 0.5);
    [|destruct (fge c 0.3)]]];
    cbn [fst snd]; repeat split; try lia; try discriminate;
    repeat constructor; intros H; discriminate H.
Qed.

(** The four sub-scores lie in 0..30, 0..25, 0..25 and 0..20, so the clamp
    of [calculate_risk_score] never changes anything: the score is the plain
    sum of the sub-scores, for every input (negative report counts
    included). *)
Theorem score_is_plain_sum
    (identifier_type identifier_value description : string)
    (report_count : Z) (ai_confidence : option float) :
  let kw := fst (_keyword_score description) in
  let idp := fst (_identifier_pattern_score identifier_type identifier_value) in
  let fr := fst (_report_frequency_score report_count) in
  let ai := fst (_ai_confidence_score ai_confidence) in
  score (calculate_risk_score identifier_type identifier_value description
           report_count ai_confidence) = kw + idp + fr + ai
  /\ 0 <= kw <= 30 /\ 0 <= idp <= 25 /\ 0 <= fr <= 25 /\ 0 <= ai <= 20.
Proof.
  intros kw idp fr ai.
  destruct (keyword_component description) as [K _].
  destruct (identifier_component identifier_type identifier_value) as [I _].
  destruct (frequency_component report_count) as [F _].
  destruct (ai_component ai_confidence) as [A _].
  fold kw in K. fold idp in I. fold fr in F. fold ai in A.
  rewrite RiskFacts.calculate_risk_score_closed_form. cbn [score].
  fold kw idp fr ai. clearbody kw idp fr ai. lia.
Qed.

(** Text added before or after a description never lowers its keyword
    sub-score. *)
Theorem keyword_score_monotone (before description after : string) :
  fst (_keyword_score description)
  <= fst (_keyword_score (before ++ description ++ after)).
Proof.
  rewrite !keyword_score_fst.
  assert (L : (List.length (found_keywords SCAM_KEYWORDS (lower description))
               <= List.length (found_keywords SCAM_KEYWORDS
                                 (lower (before ++ description ++ after))))%nat).
  { apply NoDup_incl_length; [apply RiskFacts.found_keywords_NoDup|].
    intros kw H. apply RiskFacts.found_keywords_In in H as [Hin Hc].
    apply RiskFacts.found_keywords_In. split; [exact Hin|].
    rewrite !lower_app.
    apply contains_iff in Hc as [x [y ->]]. apply contains_iff.
    exists (lower before ++ x), (y ++ lower after).
    now rewrite !PatternFacts.app_assoc_s. }
  unfold len. lia.
Qed.

(** The frequency sub-score and with it the total score and the level never
    go down when the report count goes up, from 0 on. *)
Theorem more_reports_never_lower
    (identifier_type identifier_value description : string)
    (n m : Z) (ai_confidence : option float) :
  0 <= n -> n <= m ->
  let r1 := calculate_risk_score identifier_type identifier_value description
              n ai_confidence in
  let r2 := calculate_risk_score identifier_type identifier_value description
              m ai_confidence in
  fst (_report_frequency_score n) <= fst (_report_frequency_score m)
  /\ score r1 <= score r2
  /\ level_rank (level r1) <= level_rank (level r2).
Proof.
  intros Hn Hm r1 r2.
  assert (F : fst (_report_frequency_score n) <= fst (_report_frequency_score m)).
  { unfold _report_frequency_score.
    destruct (Z.eqb_spec n 0); destruct (Z.eqb_spec m 0);
      destruct (Z.eqb_spec n 1); destruct (Z.eqb_spec m 1);
      destruct (Z.leb_spec n 3); destruct (Z.leb_spec m 3);
      destruct (Z.leb_spec n 10); destruct (Z.leb_spec m 10);
      cbn [fst]; lia. }
  split; [exact F|].
  subst r1 r2. rewrite !RiskFacts.calculate_risk_score_closed_form.
  cbn [score level].
  set (s1 := Z.min (Z.max (_ + fst (_report_frequency_score n) + _) 0) 100).
  set (s2 := Z.min (Z.max (_ + fst (_report_frequency_score m) + _) 0) 100).
  assert (S : s1 <= s2) by (subst s1 s2; lia).
  split; [exact S|].
  clearbody s1 s2. unfold _determine_level.
  destruct (Z.geb_spec s1 75); destruct (Z.geb_spec s2 75);
    destruct (Z.geb_spec s1 50); destruct (Z.geb_spec s2 50);
    destruct (Z.geb_spec s1 25); destruct (Z.geb_spec s2 25);
    cbn; lia.
Qed.

Lemma more_reports_never_lower_witness :
  0 <= 1 /\ 1 <= 4
  /\ score (calculate_risk_score "phone" "1401234567" "call about KYC" 1 None)
     <= score (calculate_risk_score "phone" "1401234567" "call about KYC" 4 None).
Proof.
  split; [lia|]. split; [lia|].
  apply (more_reports_never_lower "phone" "1401234567" "call about KYC" 1 4 None);
    lia.
Defined.

(** The factor list of a risk assessment is never empty and holds at most
    five entries; it is the single placeholder "No significant risk factors
    detected" only when the score is 0 and the level LOW. *)
Theorem factors_never_empty
    (identifier_type identifier_value description : string)
    (report_count : Z) (ai_confidence : option float) :
  let r := calculate_risk_score identifier_type identifier_value description
             report_count ai_confidence in
  factors r <> []
  /\ (List.length (factors r) <= 5)%nat
  /\ (factors r = [NO_FACTORS] -> score r = 0 /\ level r = "LOW").
Proof.
  intros r. subst r. rewrite RiskFacts.calculate_risk_score_closed_form.
  cbn [score level factors].
  destruct (keyword_component description) as [K1 [K2 K3]].
  destruct (identifier_component identifier_type identifier_value) as [I1 [I2 I3]].
  destruct (frequency_component report_count) as [F1 [F2 F3]].
  destruct (ai_component ai_confidence) as [A1 [A2 A3]].
  assert (LK : (List.length (snd (_keyword_score description)) <= 1)%nat).
  { unfold _keyword_score.
    destruct (found_keywords SCAM_KEYWORDS (lower description)); simpl; lia. }
  assert (LI : (List.length (snd (_identifier_pattern_score identifier_type
                                    identifier_value)) <= 2)%nat).
  { unfold _identifier_pattern_score, _check_phone, _check_upi, _check_website,
      _check_email.
    repeat match goal with
           | |- context [if ?b then _ else _] => destruct b
           | |- context [match ?o with Some _ => _ | None => _ end] => destruct o
           end; simpl; lia. }
  assert (LF : (List.length (snd (_report_frequency_score report_count)) <= 1)%nat).
  { unfold _report_frequency_score.
    repeat match goal with
           | |- context [if ?b then _ else _] => destruct b
           end; simpl; lia. }
  assert (LA : (List.length (snd (_ai_confidence_score ai_confidence)) <= 1)%nat).
  { unfold _ai_confidence_score. destruct ai_confidence; [|simpl; lia].
    repeat match goal with
           | |- context [if ?b then _ else _] => destruct b
           end; simpl; lia. }
  set (fk := snd (_keyword_score description)) in *.
  set (fi := snd (_identifier_pattern_score identifier_type identifier_value)) in *.
  set (ff := snd (_report_frequency_score report_count)) in *.
  set (fa := snd (_ai_confidence_score ai_confidence)) in *.
  assert (FA : Forall (fun f => f <> NO_FACTORS) (fk ++ fi ++ ff ++ fa)%list)
    by (repeat (apply Forall_app; split); assumption).
  assert (LEN : (List.length (fk ++ fi ++ ff ++ fa)%list <= 5)%nat)
    by (rewrite !length_app; lia).
  destruct (fk ++ fi ++ ff ++ fa)%list as [|f rest] eqn:E.
  - split; [discriminate|]. split; [simpl; lia|]. intros _.
    apply app_eq_nil in E as [Ek E]. apply app_eq_nil in E as [Ei E].
    apply app_eq_nil in E as [Ef Ea].
    rewrite (K2 Ek), (I2 Ei), (F2 Ef), (A2 Ea). split; reflexivity.
  - split; [discriminate|]. split; [exact LEN|].
    intros [= -> _]. inversion FA as [|? ? N _]. now elim N.
Qed.

End ScoreFacts.

(** ** The report store *)

Module StoreFacts.
Import Py Exc Shapes NormalizeFacts.
Import Database.

Lemma string_leb_trans (a b c : string) :
  String.leb a b = true -> String.leb b c = true -> String.leb a c = true.
Proof.
  unfold String.leb. revert b c.
  induction a as [|x a IH]; intros [|y b] [|z c]; simpl;
    try reflexivity; try discriminate.
  unfold Ascii.compare.
  destruct (N.compare_spec (N_of_ascii x) (N_of_ascii y)) as [E1|L1|G1];
    destruct (N.compare_spec (N_of_ascii y) (N_of_ascii z)) as [E2|L2|G2];
    destruct (N.compare_spec (N_of_ascii x) (N_of_ascii z)) as [E3|L3|G3];
    try reflexivity; try discriminate; try lia.
  apply IH.
Qed.

Lemma ltb_false_leb (a b : string) :
  String.ltb a b = false -> String.leb b a = true.
Proof.
  unfold String.ltb, String.leb. rewrite (String.compare_antisym b a).
  destruct (String.compare a b); simpl; congruence.
Qed.

Lemma ltb_true_leb (a b : string) :
  String.ltb a b = true -> String.leb a b = true.
Proof.
  unfold String.ltb, String.leb. destruct (String.compare a b); congruence.
Qed.

Lemma not_older_trans (a b c : Row) :
  not_older a b -> not_older b c -> not_older a c.
Proof. unfold not_older. intros H1 H2. eapply string_leb_trans; eassumption. Qed.

Lemma insert_desc_sorted (r : Row) (l : list Row) :
  StronglySorted not_older l -> StronglySorted not_older (insert_desc r l).
Proof.
  induction l as [|r' l IH]; simpl; intros H.
  - repeat constructor.
  - inversion H as [|? ? Hl Hall]; subst.
    destruct (String.ltb (reported_at r) (reported_at r')) eqn:E.
    + constructor; [apply IH, Hl|].
      assert (P : Permutation (insert_desc r l) (r :: l))
        by apply WorkflowFacts.insert_desc_Permutation.
      apply (Permutation_Forall (Permutation_sym P)).
      constructor; [apply ltb_true_leb, E|exact Hall].
    + assert (N : not_older r r') by (apply ltb_false_leb, E).
      constructor; [exact H|].
      constructor; [exact N|].
      eapply Forall_impl; [|exact Hall].
      intros x Hx. eapply not_older_trans; eassumption.
Qed.

Lemma order_by_sorted (l : list Row) :
  StronglySorted not_older (order_by_reported_at_desc l).
Proof.
  induction l as [|r l IH]; simpl; [constructor|].
  apply insert_desc_sorted, IH.
Qed.

(** [get_reports_by_identifier] returns exactly the rows stored under the
    normalized identifier, each once, the most recent first (every row is
    at least as recent as all the rows after it), and
    [get_report_count_for_identifier] is the number of these rows. *)
Theorem lookup_rows_sorted_and_counted (db : DB) (identifier_value : string) :
  let normalized := lower (strip identifier_value) in
  let rows := get_reports_by_identifier db identifier_value in
  Permutation rows
    (filter (fun r => Database.identifier_value r =? normalized) (fraud_reports db))
  /\ (forall r, In r rows <->
                In r (fraud_reports db) /\ Database.identifier_value r = normalized)
  /\ StronglySorted not_older rows
  /\ get_report_count_for_identifier db identifier_value = len rows.
Proof.
  intros normalized rows.
  assert (P : Permutation rows
                (filter (fun r => Database.identifier_value r =? normalized)
                        (fraud_reports db)))
    by apply WorkflowFacts.order_by_Permutation.
  split; [exact P|]. split; [|split].
  - intros r. split.
    + intros H. apply (Permutation_in _ P) in H.
      apply filter_In in H as [H1 H2]. apply String.eqb_eq in H2. now split.
    + intros [H1 H2]. apply (Permutation_in _ (Permutation_sym P)).
      apply filter_In. split; [exact H1|]. now apply String.eqb_eq.
  - apply order_by_sorted.
  - unfold get_report_count_for_identifier, len.
    now rewrite (Permutation_length P).
Qed.







Lemma well_formed_empty : well_formed empty.
Proof. repeat split; constructor. Qed.


(** An insertion keeps the store well formed (distinct row ids, all at most
    the counter, identifiers in normalized form); it appends one row, keeps
    every earlier row, and returns an id larger than every id in use. *)
Theorem insert_report_keeps_well_formed (db db' : DB)
    (ty value descr cat : string) (sc : Z) (lv fs ai who now : string) (rid : Z) :
  well_formed db ->
  insert_report db ty value descr cat sc lv fs ai who now = Return (db', rid) ->
  well_formed db'
  /\ (exists row, fraud_reports db' = (fraud_reports db ++ [row])%list
                  /\ id row = rid)
  /\ Forall (fun r => id r < rid) (fraud_reports db)
  /\ ~ In rid (map id (fraud_reports db)).
Proof.
  intros [ND [LE NM]] H.
  apply WorkflowFacts.insert_report_Return in H as [Hrid ->].
  assert (LT : Forall (fun r => id r < rid) (fraud_reports db)).
  { eapply Forall_impl; [|exact LE]. cbv beta. intros r Hr. lia. }
  assert (NI : ~ In rid (map id (fraud_reports db))).
  { intros Hin. apply in_map_iff in Hin as [r [Hr Hin]].
    rewrite Forall_forall in LT. specialize (LT r Hin). lia. }
  split; [|split; [|split]]; try assumption.
  - unfold well_formed. cbn [fraud_reports last_id]. split; [|split].
    + rewrite map_app. cbn [map id].
      apply NoDup_app; [exact ND|repeat constructor; simpl; tauto|].
      intros x Hx [<-|[]]. exact (NI Hx).
    + apply Forall_app. split.
      * eapply Forall_impl; [|exact LT]. cbv beta. intros r Hr. lia.
      * repeat constructor. cbn [id]. lia.
    + apply Forall_app. split; [exact NM|].
      repeat constructor. cbn [Database.identifier_value].
      apply normalize_idem.
  - eexists. split; [reflexivity|reflexivity].
Qed.

Lemma insert_report_keeps_well_formed_witness :
  exists db' rid,
    well_formed empty
    /\ insert_report empty "upi" " Lucky@OKAXIS " "d" "unknown" 15 "LOW" "[]" "{}"
         "Anonymous" "2026-01-01T00:00:00" = Return (db', rid)
    /\ well_formed db'.
Proof.
  eexists. eexists.
  assert (E : insert_report empty "upi" " Lucky@OKAXIS " "d" "unknown" 15 "LOW"
                "[]" "{}" "Anonymous" "2026-01-01T00:00:00" = Return (_, _))
    by reflexivity.
  split; [exact well_formed_empty|]. split; [exact E|].
  apply (insert_report_keeps_well_formed _ _ _ _ _ _ _ _ _ _ _ _ _
           well_formed_empty E).
Defined.

(** In a well-formed store every row is found again by looking up its own
    stored identifier. *)
Theorem stored_row_found_by_its_identifier (db : DB) (row : Row) :
  well_formed db ->
  In row (fraud_reports db) ->
  In row (get_reports_by_identifier db (Database.identifier_value row))
  /\ get_report_count_for_identifier db (Database.identifier_value row) >= 1.
Proof.
  intros [_ [_ NM]] Hin.
  rewrite Forall_forall in NM. specialize (NM row Hin).
  assert (F : In row (where_identifier_value
                        (lower (strip (Database.identifier_value row)))
                        (fraud_reports db))).
  { apply filter_In. split; [exact Hin|]. rewrite NM. apply String.eqb_refl. }
  split.
  - unfold get_reports_by_identifier.
    apply (Permutation_in _ (Permutation_sym (WorkflowFacts.order_by_Permutation _))), F.
  - unfold get_report_count_for_identifier, len.
    destruct (where_identifier_value _ (fraud_reports db)); [destruct F|].
    simpl List.length. lia.
Qed.

Lemma stored_row_found_by_its_identifier_witness :
  let row := mkRow 1 "upi" "lucky@okaxis" "d" "unknown" 15 "LOW" "[]" "{}"
               "Anonymous" "2026-01-01T00:00:00" in
  let db := mkDB [row] 1 in
  well_formed db /\ In row (fraud_reports db)
  /\ In row (get_reports_by_identifier db "lucky@okaxis").
Proof.
  intros row db.
  assert (W : well_formed db).
  { repeat split; repeat constructor; simpl; try tauto; try lia. }
  assert (I : In row (fraud_reports db)) by (left; reflexivity).
  split; [exact W|]. split; [exact I|].
  apply (stored_row_found_by_its_identifier db row W I).
Defined.

(** An insertion raises the report count of the inserted identifier by one,
    for every spelling with the same normalized form, and leaves the count
    of every other identifier unchanged. *)
Theorem insert_report_changes_one_count (db db' : DB)
    (ty value descr cat : string) (sc : Z) (lv fs ai who now : string) (rid : Z)
    (other : string) :
  insert_report db ty value descr cat sc lv fs ai who now = Return (db', rid) ->
  get_report_count_for_identifier db' other
  = get_report_count_for_identifier db other
    + (if lower (strip other) =? lower (strip value) then 1 else 0).
Proof.
  intros H. apply WorkflowFacts.insert_report_Return in H as [_ ->].
  unfold get_report_count_for_identifier, len. cbn [fraud_reports].
  rewrite WorkflowFacts.where_identifier_value_app, length_app.
  unfold where_identifier_value at 2. cbn [filter Database.identifier_value].
  rewrite (String.eqb_sym (lower (strip value))).
  destruct (lower (strip other) =? lower (strip value)); simpl List.length; lia.
Qed.

Lemma insert_report_changes_one_count_witness :
  exists db' rid,
    insert_report empty "upi" " Lucky@OKAXIS " "d" "unknown" 15 "LOW" "[]" "{}"
      "Anonymous" "2026-01-01T00:00:00" = Return (db', rid)
    /\ get_report_count_for_identifier db' "LUCKY@okaxis" = 1
    /\ get_report_count_for_identifier db' "lucky@oksbi" = 0.
Proof.
  eexists. eexists.
  assert (E : insert_report empty "upi" " Lucky@OKAXIS " "d" "unknown" 15 "LOW"
                "[]" "{}" "Anonymous" "2026-01-01T00:00:00" = Return (_, _))
    by reflexivity.
  split; [exact E|]. split.
  - rewrite (insert_report_changes_one_count _ _ _ _ _ _ _ _ _ _ _ _ _
               "LUCKY@okaxis" E). reflexivity.
  - reflexivity.
Defined.

(** *** Grouped counts *)

Lemma add_to_group_count (k k' : string) (groups : list (string * Z)) :
  count_in k' (add_to_group k groups)
  = count_in k' groups + (if k =? k' then 1 else 0).
Proof.
  unfold count_in. induction groups as [|[k0 n] groups IH]; simpl.
  - destruct (String.eqb_spec k k'); simpl; reflexivity.
  - destruct (String.eqb_spec k0 k) as [->|N]; cbn [find fst snd].
    + destruct (String.eqb_spec k k'); simpl; lia.
    + destruct (String.eqb_spec k0 k') as [->|N'].
      * destruct (String.eqb_spec k k'); [congruence|]. simpl. lia.
      * exact IH.
Qed.

Lemma add_to_group_keys (k x : string) (groups : list (string * Z)) :
  In x (map fst (add_to_group k groups)) <-> x = k \/ In x (map fst groups).
Proof.
  induction groups as [|[k0 n] groups IH]; simpl.
  - intuition.
  - destruct (String.eqb_spec k0 k) as [->|N]; cbn [map fst In].
    + intuition.
    + rewrite IH. intuition.
Qed.

Lemma add_to_group_NoDup (k : string) (groups : list (string * Z)) :
  NoDup (map fst groups) -> NoDup (map fst (add_to_group k groups)).
Proof.
  induction groups as [|[k0 n] groups IH]; simpl; intros H.
  - repeat constructor. simpl. tauto.
  - inversion H as [|? ? Hn Hd]; subst.
    destruct (String.eqb_spec k0 k) as [->|N]; cbn [map fst].
    + constructor; assumption.
    + constructor; [|apply IH, Hd].
      rewrite add_to_group_keys. intros [->|Hin]; [congruence|exact (Hn Hin)].
Qed.

Lemma add_to_group_positive (k : string) (groups : list (string * Z)) :
  Forall (fun g => 0 < snd g) groups ->
  Forall (fun g => 0 < snd g) (add_to_group k groups).
Proof.
  induction groups as [|[k0 n] groups IH]; simpl; intros H.
  - constructor; [simpl; lia|constructor].
  - inversion H as [|? ? Hp Hr]; subst. cbn [snd] in Hp.
    destruct (k0 =? k); constructor; cbn [snd]; try lia; auto.
Qed.

Lemma add_to_group_total (k : string) (groups : list (string * Z)) :
  total_count (add_to_group k groups) = total_count groups + 1.
Proof.
  induction groups as [|[k0 n] groups IH]; simpl; [reflexivity|].
  destruct (k0 =? k); simpl; lia.
Qed.

(** What [GROUP BY] computes, for any column and any starting groups. *)
Lemma group_fold (key : Row -> string) (l : list Row) :
  forall acc : list (string * Z),
    NoDup (map fst acc) -> Forall (fun g => 0 < snd g) acc ->
    let groups := fold_left (fun gs r => add_to_group (key r) gs) l acc in
    NoDup (map fst groups)
    /\ Forall (fun g => 0 < snd g) groups
    /\ total_count groups = total_count acc + len l
    /\ forall k, count_in k groups = count_in k acc + rows_with key k l.
Proof.
  induction l as [|r l IH]; intros acc ND POS; cbn [fold_left].
  - repeat split; try assumption; unfold len, rows_with; simpl; try lia.
    intros k. unfold len. simpl. lia.
  - destruct (IH (add_to_group (key r) acc)
                 (add_to_group_NoDup _ _ ND) (add_to_group_positive _ _ POS))
      as [H1 [H2 [H3 H4]]].
    split; [exact H1|]. split; [exact H2|]. split.
    + rewrite H3, add_to_group_total. unfold len. simpl List.length. lia.
    + intros k. rewrite H4, add_to_group_count.
      unfold rows_with, len. cbn [filter].
      destruct (key r =? k); simpl List.length; lia.
Qed.

Lemma count_in_In (groups : list (string * Z)) (k : string) (n : Z) :
  NoDup (map fst groups) -> Forall (fun g => 0 < snd g) groups ->
  (In (k, n) groups <-> count_in k groups = n /\ 0 < n).
Proof.
  unfold count_in. induction groups as [|[k0 n0] groups IH]; intros ND POS.
  - simpl. split; [tauto|lia].
  - inversion ND as [|? ? Hn Hd]; subst.
    inversion POS as [|? ? Hp Hr]; subst. cbn [snd] in Hp.
    cbn [find fst In].
    destruct (String.eqb_spec k0 k) as [->|N]; cbn [snd].
    + split.
      * intros [[= ->]|Hin]; [split; [reflexivity|exact Hp]|].
        exfalso. apply Hn. apply in_map_iff. exists (k, n). now split.
      * intros [-> _]. now left.
    + rewrite <- (IH Hd Hr). split; [intros [[= ? ?]|H]; [congruence|exact H]|].
      intros H. now right.
Qed.

Lemma insert_count_desc_Permutation (g : string * Z) (l : list (string * Z)) :
  Permutation (insert_count_desc g l) (g :: l).
Proof.
  induction l as [|g' l IH]; simpl; [apply Permutation_refl|].
  destruct (snd g <? snd g')%Z; [|apply Permutation_refl].
  eapply perm_trans; [apply perm_skip, IH|apply perm_swap].
Qed.

Lemma order_by_count_Permutation (l : list (string * Z)) :
  Permutation (order_by_count_desc l) l.
Proof.
  induction l as [|g l IH]; simpl; [apply perm_nil|].
  eapply perm_trans; [apply insert_count_desc_Permutation|apply perm_skip, IH].
Qed.



Lemma total_count_Permutation (l l' : list (string * Z)) :
  Permutation l l' -> total_count l = total_count l'.
Proof.
  induction 1; simpl; lia.
Qed.


Lemma group_count_spec (key : Row -> string) (l : list Row) :
  NoDup (map fst (group_count key l))
  /\ Forall (fun g => 0 < snd g) (group_count key l)
  /\ total_count (group_count key l) = len l
  /\ forall k n, In (k, n) (group_count key l) <->
                 n = rows_with key k l /\ 0 < n.
Proof.
  destruct (group_fold key l [] (NoDup_nil _) (Forall_nil _)) as [H1 [H2 [H3 H4]]].
  fold (group_count key l) in *.
  split; [exact H1|]. split; [exact H2|]. split; [exact H3|].
  intros k n. rewrite (count_in_In _ k n H1 H2), H4.
  unfold count_in at 1. simpl. split; intros [E P]; (split; [lia|exact P]).
Qed.


Lemma high_risk_split (rows : list Row) :
  len (filter (fun r => existsb (String.eqb (risk_level r)) ["HIGH"; "CRITICAL"])
              rows)
  = rows_with risk_level "HIGH" rows + rows_with risk_level "CRITICAL" rows.
Proof.
  unfold rows_with, len. induction rows as [|r rows IH]; [reflexivity|].
  cbn [filter existsb] in *.
  destruct (String.eqb_spec (risk_level r) "HIGH") as [E|N].
  - rewrite E. change ("HIGH" =? "CRITICAL") with false.
    cbn [orb]. simpl List.length. lia.
  - destruct (risk_level r =? "CRITICAL"); cbn [orb]; simpl List.length; lia.
Qed.

(** The totals of the dashboard agree with each other: the total is the
    number of rows, the counts of the risk distribution and of the types
    each add up to the total, the high-risk count is the number of HIGH rows
    plus the number of CRITICAL rows, neither it nor the number of unique
    identifiers exceeds the total, and the recent list holds the ten most
    recent reports at most. *)
Theorem dashboard_totals_consistent (db : DB) :
  let s := get_dashboard_stats db in
  let rows := fraud_reports db in
  total_reports s = len rows
  /\ total_count (risk_distribution s) = total_reports s
  /\ total_count (by_type s) = total_reports s
  /\ high_risk_count s
     = rows_with risk_level "HIGH" rows + rows_with risk_level "CRITICAL" rows
  /\ 0 <= high_risk_count s <= total_reports s
  /\ 0 <= unique_identifiers s <= total_reports s
  /\ len (recent_reports s) = Z.min 10 (total_reports s).
Proof.
  intros s rows. subst s. unfold get_dashboard_stats. fold rows.
  cbn [total_reports risk_distribution by_type high_risk_count unique_identifiers
       recent_reports].
  destruct (group_count_spec risk_level rows) as [_ [_ [L3 _]]].
  destruct (group_count_spec Database.identifier_type rows) as [_ [_ [T3 _]]].
  destruct (group_count_spec Database.identifier_value rows) as [_ [U2 [U3 _]]].
  split; [reflexivity|]. split; [exact L3|]. split.
  { rewrite (total_count_Permutation _ _ (order_by_count_Permutation _)). exact T3. }
  split; [apply high_risk_split|]. split; [|split].
  - unfold len. split; [lia|].
    apply inj_le, filter_length_le.
  - split; [unfold len; lia|]. rewrite <- U3.
    clear U3. induction U2 as [|g gs Hp _ IH]; [simpl; unfold len; simpl; lia|].
    unfold len in *. simpl List.length. simpl total_count. lia.
  - unfold len. rewrite length_map, length_firstn.
    rewrite (Permutation_length (WorkflowFacts.order_by_Permutation rows)). lia.
Qed.

End StoreFacts.

(** ** The code fences around the answer of the model *)

Module FenceFacts.
Import Py Shapes NormalizeFacts PatternFacts.
Import GeminiService.

Lemma length_rstrip (s : string) : (String.length (rstrip s) <= String.length s)%nat.
Proof.
  induction s as [|c s IH]; simpl; [lia|].
  destruct (rstrip s); [destruct (isspace c)|]; simpl in *; lia.
Qed.

Lemma strip_fixed (s : string) :
  strip s = s -> starts_clean s = true /\ rstrip s = s.
Proof.
  intros H.
  assert (C : starts_clean s = true).
  { rewrite <- H. apply rstrip_starts_clean, lstrip_starts_clean. }
  split; [exact C|]. unfold strip in H. now rewrite (lstrip_clean s C) in H.
Qed.

Lemma rstrip_app (a b : string) :
  rstrip b <> "" -> rstrip (a ++ b) = a ++ rstrip b.
Proof.
  intros H. induction a as [|c a IH]; simpl; [reflexivity|].
  rewrite IH. destruct (a ++ rstrip b) eqn:E; [|reflexivity].
  exfalso. destruct a; simpl in E; [exact (H E)|discriminate E].
Qed.

Lemma rstrip_app_space (a : string) (c : ascii) :
  isspace c = true -> rstrip (a ++ String c "") = rstrip a.
Proof.
  intros H. induction a as [|x a IH]; simpl; [now rewrite H|now rewrite IH].
Qed.

Lemma endswith_app (a p : string) : endswith (a ++ p) p = true.
Proof.
  induction a as [|c a IH]; simpl.
  - destruct p; simpl; [reflexivity|]. rewrite String.eqb_refl, Ascii.eqb_refl.
    reflexivity.
  - rewrite IH. apply orb_true_r.
Qed.

Lemma endswith_iff (s p : string) :
  endswith s p = true <-> exists a, s = a ++ p.
Proof.
  split.
  - induction s as [|c s IH]; simpl.
    + rewrite orb_false_r. intros H. exists "".
      destruct p; [reflexivity|discriminate H].
    + intros H. apply orb_prop in H as [H|H].
      * change ((String c s =? p) = true) in H.
        apply String.eqb_eq in H. exists "". exact H.
      * destruct (IH H) as [a ->]. exists (String c a). reflexivity.
  - intros [a ->]. apply endswith_app.
Qed.

Lemma take_app (a b : string) : take (String.length a) (a ++ b) = a.
Proof. induction a as [|c a IH]; simpl; [now destruct b|now rewrite IH]. Qed.

Lemma drop_last_app (a p : string) : drop_last (String.length p) (a ++ p) = a.
Proof.
  unfold drop_last. rewrite length_app_s.
  replace (String.length a + String.length p - String.length p)%nat
    with (String.length a) by lia.
  apply take_app.
Qed.

Lemma lstrip_app_clean (a b : string) :
  a <> "" -> starts_clean a = true -> lstrip (a ++ b) = a ++ b.
Proof.
  intros N C. destruct a as [|c a]; [congruence|].
  simpl in *. destruct (isspace c); [discriminate|reflexivity].
Qed.

(** A string that ends with a space character is changed by [rstrip]. *)
Lemma rstrip_changes (a : string) (c : ascii) :
  isspace c = true -> rstrip (a ++ String c "") <> a ++ String c "".
Proof.
  intros H E. rewrite (rstrip_app_space a c H) in E.
  pose proof (length_rstrip a) as L. rewrite E, length_app_s in L.
  simpl in L. lia.
Qed.

Lemma cleaned_fenced_json (body : string) :
  strip body = body -> cleaned (fenced "json" body) = body.
Proof.
  intros H. destruct (strip_fixed body H) as [C R].
  destruct (string_dec body "") as [->|N]; [reflexivity|].
  unfold cleaned, fenced.
  assert (S1 : strip ("```" ++ "json" ++ NL ++ body ++ NL ++ "```")
               = "```json" ++ NL ++ body ++ NL ++ "```").
  { unfold strip.
    change (lstrip ("```" ++ "json" ++ NL ++ body ++ NL ++ "```"))
      with ("```json" ++ NL ++ body ++ NL ++ "```").
    replace ("```json" ++ NL ++ body ++ NL ++ "```")
      with (("```json" ++ NL ++ body ++ NL) ++ "```")
      by (now rewrite !app_assoc_s).
    rewrite rstrip_app by discriminate. reflexivity. }
  rewrite S1.
  assert (S2 : strip_opening_fence ("```json" ++ NL ++ body ++ NL ++ "```")
               = (body ++ NL) ++ "```").
  { change (strip_opening_fence ("```json" ++ NL ++ body ++ NL ++ "```"))
      with (lstrip (body ++ NL ++ "```")).
    rewrite (lstrip_app_clean body _ N C). now rewrite app_assoc_s. }
  rewrite S2. unfold strip_closing_fence. rewrite endswith_app.
  change 3%nat with (String.length "```"). rewrite drop_last_app.
  unfold NL. rewrite rstrip_app_space by reflexivity. exact R.
Qed.

Lemma cleaned_fenced_plain (body : string) :
  strip body = body -> startswith body "json" = false ->
  cleaned (fenced "" body) = body.
Proof.
  intros H J. destruct (strip_fixed body H) as [C R].
  destruct (string_dec body "") as [->|N]; [reflexivity|].
  unfold cleaned, fenced.
  assert (S1 : strip ("```" ++ "" ++ NL ++ body ++ NL ++ "```")
               = "```" ++ NL ++ body ++ NL ++ "```").
  { unfold strip.
    change (lstrip ("```" ++ "" ++ NL ++ body ++ NL ++ "```"))
      with ("```" ++ NL ++ body ++ NL ++ "```").
    replace ("```" ++ NL ++ body ++ NL ++ "```")
      with (("```" ++ NL ++ body ++ NL) ++ "```")
      by (now rewrite !app_assoc_s).
    rewrite rstrip_app by discriminate. reflexivity. }
  rewrite S1.
  assert (S2 : strip_opening_fence ("```" ++ NL ++ body ++ NL ++ "```")
               = (body ++ NL) ++ "```").
  { change (strip_opening_fence ("```" ++ NL ++ body ++ NL ++ "```"))
      with (lstrip (body ++ NL ++ "```")).
    rewrite (lstrip_app_clean body _ N C). now rewrite app_assoc_s. }
  rewrite S2. unfold strip_closing_fence. rewrite endswith_app.
  change 3%nat with (String.length "```"). rewrite drop_last_app.
  unfold NL. rewrite rstrip_app_space by reflexivity. exact R.
Qed.

Lemma cleaned_unfenced (body : string) :
  strip body = body -> startswith body "```" = false ->
  endswith body "```" = false -> cleaned body = body.
Proof.
  intros H O E. destruct (strip_fixed body H) as [_ R].
  unfold cleaned. rewrite H. unfold strip_opening_fence. rewrite O.
  unfold strip_closing_fence. rewrite E.
  destruct (endswith body ("```" ++ String "010" "")) eqn:E2; [|reflexivity].
  exfalso. apply endswith_iff in E2 as [a E2].
  rewrite E2, <- app_assoc_s in R.
  exact (rstrip_changes (a ++ "```") "010" eq_refl R).
Qed.

(** [_parse_response] depends on its text through [cleaned] only. *)
Lemma parse_response_cleaned (env : Env) (t1 t2 : string) :
  cleaned t1 = cleaned t2 -> _parse_response env t1 = _parse_response env t2.
Proof.
  intros H. unfold _parse_response. fold (cleaned t1). fold (cleaned t2).
  now rewrite H.
Qed.

(** An answer wrapped in a Markdown code fence is parsed as the bare answer:
    for a body without surrounding white space and without fence of its
    own, the text handed to the JSON reader is the body itself, whether the
    answer comes bare, in a fence tagged json, or in an untagged fence (the
    body then not starting with "json"). *)
Theorem fenced_answer_parsed_as_bare (env : Env) (body : string) :
  strip body = body ->
  startswith body "```" = false ->
  endswith body "```" = false ->
  cleaned body = body
  /\ cleaned (fenced "json" body) = body
  /\ (startswith body "json" = false -> cleaned (fenced "" body) = body)
  /\ _parse_response env (fenced "json" body) = _parse_response env body.
Proof.
  intros H O E.
  pose proof (cleaned_unfenced body H O E) as C0.
  pose proof (cleaned_fenced_json body H) as C1.
  split; [exact C0|]. split; [exact C1|].
  split; [intros J; apply cleaned_fenced_plain; assumption|].
  apply parse_response_cleaned. now rewrite C0, C1.
Qed.

Lemma fenced_answer_parsed_as_bare_witness :
  strip "{}" = "{}" /\ startswith "{}" "```" = false /\ endswith "{}" "```" = false
  /\ cleaned (fenced "json" "{}") = "{}".
Proof.
  repeat (split; [reflexivity|]).
  apply (fenced_answer_parsed_as_bare Scenarios.offline_env "{}");
    reflexivity.
Defined.

End FenceFacts.

(** ** What leaves the AI collaborator *)

Module BoundaryFacts.
Import Py Exc Shapes.
Import GeminiService.

(** An exception of the parse either comes from [json.loads] or derives
    from [Exception]. *)
Lemma parse_json_fields_raise_origin (env : Env) (text : string) (e : exn) :
  parse_json_fields env text = Raise e ->
  json_loads env text = Raise e \/ is_Exception (exc_cls e) = true.
Proof.
  unfold parse_json_fields, bind.
  destruct (json_loads env text) as [result|e0] eqn:EL.
  2:{ intros [= <-]. now left. }
  intros H. right. revert H.
  destruct (get result "is_scam" _) as [v1|e1] eqn:E1.
  2:{ intros [= <-]. eapply ServiceFacts.get_raises_Exception, E1. }
  destruct (get result "confidence" _) as [v2|e2] eqn:E2.
  2:{ intros [= <-]. eapply ServiceFacts.get_raises_Exception, E2. }
  destruct (py_float env v2) as [f|e3] eqn:E3.
  2:{ intros [= <-]. eapply ServiceFacts.py_float_raises_Exception, E3. }
  destruct (get result "scam_type" _) as [v4|e4] eqn:E4.
  2:{ intros [= <-]. eapply ServiceFacts.get_raises_Exception, E4. }
  destruct (get result "explanation" _) as [v5|e5] eqn:E5.
  2:{ intros [= <-]. eapply ServiceFacts.get_raises_Exception, E5. }
  destruct (get result "advice" _) as [v6|e6] eqn:E6.
  2:{ intros [= <-]. eapply ServiceFacts.get_raises_Exception, E6. }
  discriminate.
Qed.

(** A parsed answer carries no error. *)
Lemma parse_json_fields_Return_error (env : Env) (text : string) (r : AIResult) :
  parse_json_fields env text = Return r -> error r = None.
Proof.
  unfold parse_json_fields, bind.
  destruct (json_loads env text) as [result|]; [|discriminate].
  destruct (get result "is_scam" _); [|discriminate].
  destruct (get result "confidence" _) as [v2|]; [|discriminate].
  destruct (py_float env v2); [|discriminate].
  destruct (get result "scam_type" _); [|discriminate].
  destruct (get result "explanation" _); [|discriminate].
  destruct (get result "advice" _); [|discriminate].
  intros [= <-]. reflexivity.
Qed.

(** The outcomes of [analyze_scam_report], path by path. *)
Lemma analyze_scam_report_paths (env : Env) (description : string)
    (identifier_type identifier_value : option string) :
  let prompt := build_user_prompt description identifier_type identifier_value in
  match analyze_scam_report env description identifier_type identifier_value with
  | Raise e =>
      GENAI_AVAILABLE env = true /\ GEMINI_API_KEY env <> ""
      /\ is_Exception (exc_cls e) = false
      /\ (generate_content_text env prompt = Raise e
          \/ exists text, generate_content_text env prompt = Return text
                          /\ parse_json_fields env (cleaned text) = Raise e)
  | Return r =>
      (error r <> None /\ is_scam r = false /\ scam_type r = "unknown"
       /\ (forall e, generate_content_text env prompt = Raise e ->
           GENAI_AVAILABLE env = true -> GEMINI_API_KEY env <> "" ->
           error r = Some (exc_str e)))
      \/ (GENAI_AVAILABLE env = true /\ GEMINI_API_KEY env <> ""
          /\ exists text, generate_content_text env prompt = Return text
                          /\ parse_json_fields env (cleaned text) = Return r)
  end.
Proof.
  intros prompt. unfold analyze_scam_report. fold prompt.
  destruct (GENAI_AVAILABLE env) eqn:EA; cbn [negb].
  2:{ left. repeat split; try discriminate. }
  unfold _configure_api.
  destruct (String.eqb_spec (GEMINI_API_KEY env) "") as [EK|NK]; cbn [negb].
  { left. repeat split; try discriminate. intros e _ _ C. now elim C. }
  unfold try_except, bind.
  destruct (generate_content_text env prompt) as [text|e] eqn:EG.
  2:{ destruct (is_Exception (exc_cls e)) eqn:EE.
      - left. repeat split; try discriminate. intros e' [= <-] _ _. reflexivity.
      - repeat split; try assumption. now left. }
  unfold _parse_response. fold (cleaned text). unfold try_except.
  destruct (parse_json_fields env (cleaned text)) as [r|e] eqn:EP.
  - right. repeat split; try assumption. exists text. now split.
  - destruct (is_parse_error (exc_cls e)) eqn:EPE.
    + left. repeat split; try discriminate.
    + destruct (is_Exception (exc_cls e)) eqn:EE.
      * left. repeat split; try discriminate.
      * repeat split; try assumption. right. exists text. now split.
Qed.

(** The only exceptions that leave [analyze_scam_report] do not derive from
    [Exception] (a keyboard interrupt, a cancellation); they come from the
    call of the service or from the JSON reader, with the package present
    and the key set. *)
Theorem only_non_exceptions_escape (env : Env) (description : string)
    (identifier_type identifier_value : option string) (e : exn) :
  analyze_scam_report env description identifier_type identifier_value = Raise e ->
  let prompt := build_user_prompt description identifier_type identifier_value in
  is_Exception (exc_cls e) = false
  /\ GENAI_AVAILABLE env = true /\ GEMINI_API_KEY env <> ""
  /\ (generate_content_text env prompt = Raise e
      \/ exists text, generate_content_text env prompt = Return text
                      /\ json_loads env (cleaned text) = Raise e).
Proof.
  intros H prompt.
  pose proof (analyze_scam_report_paths env description identifier_type
                identifier_value) as P.
  cbv zeta in P. rewrite H in P. destruct P as [A [K [E O]]].
  repeat split; try assumption.
  destruct O as [O|[text [G O]]]; [now left|].
  right. exists text. split; [exact G|].
  destruct (parse_json_fields_raise_origin _ _ _ O) as [L|X]; [exact L|].
  congruence.
Qed.

Lemma only_non_exceptions_escape_witness :
  exists e,
    analyze_scam_report interrupted_env "verify your KYC" None None = Raise e
    /\ is_Exception (exc_cls e) = false.
Proof.
  eexists.
  assert (E : analyze_scam_report interrupted_env "verify your KYC" None None
              = Raise _) by reflexivity.
  split; [exact E|].
  apply (only_non_exceptions_escape interrupted_env _ _ _ _ E).
Defined.

(** A result of [analyze_scam_report] has no error exactly when it is the
    parsed answer of the model; every other result is a fallback with an
    error. *)
Theorem result_without_error_is_parsed (env : Env) (description : string)
    (identifier_type identifier_value : option string) (r : AIResult) :
  analyze_scam_report env description identifier_type identifier_value = Return r ->
  let prompt := build_user_prompt description identifier_type identifier_value in
  (error r = None <->
   GENAI_AVAILABLE env = true /\ GEMINI_API_KEY env <> ""
   /\ exists text, generate_content_text env prompt = Return text
                   /\ parse_json_fields env (cleaned text) = Return r)
  /\ (error r <> None -> is_scam r = false /\ scam_type r = "unknown").
Proof.
  intros H prompt.
  pose proof (analyze_scam_report_paths env description identifier_type
                identifier_value) as P.
  cbv zeta in P. rewrite H in P. fold prompt in P.
  destruct P as [[N [S [T _]]]|[A [K [text [G Q]]]]].
  - split; [|intros _; now split].
    split; [intros C; now elim N|].
    intros [_ [_ [text [_ Q]]]].
    apply parse_json_fields_Return_error in Q. now elim N.
  - pose proof (parse_json_fields_Return_error _ _ _ Q) as EN.
    split; [|intros C; now elim C].
    split; [intros _|intros _; exact EN].
    repeat split; try assumption. exists text. now split.
Qed.

Lemma result_without_error_is_parsed_witness :
  exists r,
    analyze_scam_report Scenarios.not_scam_env "verify your KYC" None None = Return r
    /\ error r = None /\ confidence r = 0.95%float.
Proof.
  eexists.
  assert (E : analyze_scam_report Scenarios.not_scam_env "verify your KYC" None None
              = Return _) by (vm_compute; reflexivity).
  split; [exact E|].
  split; [|reflexivity].
  apply (result_without_error_is_parsed Scenarios.not_scam_env _ _ _ _ E).
  repeat split; try discriminate.
  eexists. split; vm_compute; reflexivity.
Defined.

End BoundaryFacts.
